(** * electrolux_exporter: the metrics collector

    A shallow embedding of package [collector] (the Prometheus collector of
    github.com/mafredri/electrolux_exporter) and proofs about what one
    collection pass emits.

    Modelling conventions.
    - Go [int] is [Z]: [Collect] performs no integer arithmetic, integers are
      only converted to [float64].
    - Go [float64] is Rocq's primitive [float] (IEEE 754 binary64, round to
      nearest even), so values are computed bit for bit.
    - A Go pointer [*int] / [*bool] that is only tested against [nil] and
      dereferenced is an [option].
    - [map[string]ApplianceInfo] is [gmap string ApplianceInfo].
    - Sending on the metrics channel [ch] appends to the list of emitted
      metrics; calls to the API client are recorded in a list of calls.
    - Log lines are not modelled. *)

From Stdlib Require Import ZArith Floats.
From stdpp Require Import gmap strings list fin_maps.

Set Warnings "-inexact-float".
Local Open Scope string_scope.
Local Open Scope Z_scope.
Local Open Scope list_scope.

(** ** Go's float64 operations used by the collector *)

Module Float64.

(** The conversion [float64(n)] of an integer: the nearest binary64 value. *)
Definition of_int (n : Z) : float :=
  SF2Prim (binary_normalize prec emax n 0 false).

(** [math.Round]: the nearest integer, halves rounded away from zero; zeros,
    infinities and NaN are returned unchanged and the sign is kept. A finite
    [x] is [m * 2^e]; with [e >= 0] it is an integer already. *)
Definition Round (x : float) : float :=
  match Prim2SF x with
  | S754_finite s m e =>
      if 0 <=? e then x
      else
        let d := 2 ^ (- e) in
        let q := Z.pos m / d in
        let r := Z.pos m mod d in
        let n := if d <=? 2 * r then q + 1 else q in
        SF2Prim (binary_normalize prec emax (if s then - n else n) 0 s)
  | _ => x
  end.

(** [math.Pow(10, float64(decimals))] for the small non-negative exponents
    the collector uses: powers of ten up to [10^22] are binary64 values and
    [math.Pow] returns them exactly. *)
Definition Pow10 (decimals : Z) : float := of_int (10 ^ decimals).

End Float64.

(** ** The types of package [ocpapi] that [Collect] reads

    The package is a dependency of the exporter. Its types are modelled with
    the fields [Collect] uses, each with the type the use site requires:
    [DoorOpen] and [Ionizer] are passed where a [*bool] is expected, [UILight]
    and [SafetyLock] have their address taken ([&reported.UILight]) and so are
    plain [bool] fields; a field that is tested against [nil] is a pointer,
    [Fanspeed] is passed as an [int]. Numeric readings that [Collect] only
    converts with [float64(...)] are taken to be integers, and the metadata
    of a reading is a value that is always there. *)

Module ocpapi.

(** An [ApplianceID] offers two views, [PNC()] and [String()]. *)
Record ApplianceID := { PNC : string; String : string }.

Record ApplianceInfo := {
  info_PNC : string;
  Brand : string;
  ProductArea : string;
  DeviceType : string;
  Model : string;
  Variant : string;
}.

(** [time.Time] as an instant on the time line; [t.After(u)] is strict. *)
Definition Time := Z.
Definition After (t u : Time) : bool := u <? t.

Record PropertyMetadata := { LastUpdated : Time }.

Module Metadata.
Record t := {
  FilterLife1 : PropertyMetadata;
  FilterLife : PropertyMetadata;
  ECO2 : PropertyMetadata;
  CO2 : PropertyMetadata;
}.
End Metadata.

Record Reported := {
  Workmode : string;
  DoorOpen : option bool;
  UILight : bool;
  SafetyLock : bool;
  Ionizer : option bool;
  FilterLife1 : option Z;
  FilterLife : option Z;
  FilterType : option Z;
  RSSI : option Z;
  Fanspeed : Z;
  Temp : option Z;
  Humidity : option Z;
  PM1 : option Z;
  PM25 : option Z;
  PM25Approximate : option Z;
  PM10 : option Z;
  TVOC : option Z;
  ECO2 : option Z;
  CO2 : option Z;
  Metadata : Metadata.t;
}.

Record ApplianceData := { ApplianceName : string; ModelName : string }.

Record Appliance := {
  applianceID : ApplianceID;
  ConnectionState : string;
  applianceData : ApplianceData;
  reported : Reported;   (* appliance.Properties.Reported *)
}.

(** A Go [(T, error)] result. *)
Inductive result (T : Type) : Type :=
| Ok (v : T)
| Error (err : string).
Arguments Ok {T} v.
Arguments Error {T} err.

(** What the client answers during one collection pass:
    [client.Appliances(ctx, true)] and [client.AppliancesInfo(ctx, ids...)]. *)
Record Client := {
  Appliances : result (list Appliance);
  AppliancesInfo : list string -> result (list ApplianceInfo);
}.

(** The zero values Go gives to a missing map entry or an empty struct. *)
Definition zeroApplianceInfo : ApplianceInfo :=
  {| info_PNC := EmptyString; Brand := EmptyString; ProductArea := EmptyString;
     DeviceType := EmptyString; Model := EmptyString; Variant := EmptyString |}.

Definition zeroMetadata : Metadata.t :=
  {| Metadata.FilterLife1 := {| LastUpdated := 0 |};
     Metadata.FilterLife := {| LastUpdated := 0 |};
     Metadata.ECO2 := {| LastUpdated := 0 |};
     Metadata.CO2 := {| LastUpdated := 0 |} |}.

Definition zeroReported : Reported :=
  {| Workmode := EmptyString; DoorOpen := None; UILight := false; SafetyLock := false;
     Ionizer := None; FilterLife1 := None; FilterLife := None;
     FilterType := None; RSSI := None; Fanspeed := 0; Temp := None;
     Humidity := None; PM1 := None; PM25 := None; PM25Approximate := None;
     PM10 := None; TVOC := None; ECO2 := None; CO2 := None;
     Metadata := zeroMetadata |}.

End ocpapi.

(** ** The part of package [prometheus] the collector uses *)

Module prometheus.

Record Desc := {
  fqName : string;
  help : string;
  variableLabels : list string;
}.

Definition BuildFQName (namespace subsystem name : string) : string :=
  namespace +:+ "_" +:+ subsystem +:+ "_" +:+ name.

(** [NewDesc(fqName, help, variableLabels, nil)]. *)
Definition NewDesc (fq hlp : string) (labels : list string) : Desc :=
  {| fqName := fq; help := hlp; variableLabels := labels |}.

(** A constant gauge metric: descriptor, value and label values. *)
Record Metric := {
  desc : Desc;
  value : float;
  labelValues : list string;
}.

(** [MustNewConstMetric(desc, GaugeValue, v, labels...)]. It panics when the
    number of label values differs from the descriptor's number of labels;
    [labels_arity] below shows that [Collect] always passes nine values for
    nine names. *)
Definition MustNewConstMetric (d : Desc) (v : float) (labels : list string) : Metric :=
  {| desc := d; value := v; labelValues := labels |}.

End prometheus.


(** ** Package [collector] *)

Module collector.
Import ocpapi prometheus.

Definition labels : list string := [
  (* General appliance info. *)
  "pnc"; "brand"; "product_area"; "device_type"; "model"; "variant";
  (* Appliance reported properties. *)
  "appliance_id"; "name"; "model_name"
].

Definition namespace : string := "electrolux".

Record Options := {
  MolecularWeight : float; (* Molecular weight of gas, in g/mol. *)
}.

(** The descriptors. In the source they are fields of [Collector], assigned
    once by [NewCollector] to the values below and never written again. *)
Definition airPurifierConnected : Desc :=
  NewDesc (BuildFQName namespace "appliance" "connected")
    "Appliance is connected" labels.
Definition airPurifierWorkmode : Desc :=
  NewDesc (BuildFQName namespace "appliance" "workmode")
    "Work mode (PowerOff = 0, Manual = 1, Auto = 2, Quiet = 3)" labels.
Definition airPurifierDoorOpen : Desc :=
  NewDesc (BuildFQName namespace "appliance" "door_open")
    "Door is open" labels.
Definition airPurifierUILight : Desc :=
  NewDesc (BuildFQName namespace "appliance" "ui_light")
    "UI light enabled" labels.
Definition airPurifierSafetyLock : Desc :=
  NewDesc (BuildFQName namespace "appliance" "safety_lock")
    "Safety lock enabled" labels.
Definition airPurifierIonizer : Desc :=
  NewDesc (BuildFQName namespace "appliance" "ionizer")
    "Ionizer enabled" labels.
Definition airPurifierFilterLife : Desc :=
  NewDesc (BuildFQName namespace "appliance" "filter_life")
    "Filter life remaining" labels.
Definition airPurifierFilterType : Desc :=
  NewDesc (BuildFQName namespace "appliance" "filter_type_id")
    "Filter type as numeric ID" labels.
Definition airPurifierRSSI : Desc :=
  NewDesc (BuildFQName namespace "appliance" "rssi")
    "WiFi signal strength" labels.
Definition airPurifierFanspeed : Desc :=
  NewDesc (BuildFQName namespace "appliance" "fanspeed")
    "Fan speed" labels.
Definition airPurifierFanspeedMax : Desc :=
  NewDesc (BuildFQName namespace "appliance" "fanspeed_max")
    "Maximum fan speed raw value" labels.
Definition airPurifierFanspeedRaw : Desc :=
  NewDesc (BuildFQName namespace "appliance" "fanspeed_raw")
    "Fan speed (raw)" labels.
Definition airPurifierTemperature : Desc :=
  NewDesc (BuildFQName namespace "appliance" "temperature")
    "Temperature in Celsius" labels.
Definition airPurifierHumidity : Desc :=
  NewDesc (BuildFQName namespace "appliance" "humidity")
    "Relative humidity" labels.
Definition airPurifierPM1 : Desc :=
  NewDesc (BuildFQName namespace "appliance" "pm1")
    "PM1 in μg/m^3" labels.
Definition airPurifierPM25 : Desc :=
  NewDesc (BuildFQName namespace "appliance" "pm25")
    "PM2.5 in μg/m^3" labels.
Definition airPurifierPM10 : Desc :=
  NewDesc (BuildFQName namespace "appliance" "pm10")
    "PM10 in μg/m^3" labels.
Definition airPurifierCO2 : Desc :=
  NewDesc (BuildFQName namespace "appliance" "co2")
    "CO2" labels.
Definition airPurifierTVOC : Desc :=
  NewDesc (BuildFQName namespace "appliance" "tvoc_ppb")
    "Total volatile organic compounds in ppb" labels.
Definition airPurifierVOCDensity : Desc :=
  NewDesc (BuildFQName namespace "appliance" "voc_density")
    "Volatile organic compound density in μg/m^3)" labels.

(** The state of a [Collector] that a pass reads or writes. The client is an
    argument of [Collect]; the mutex is part of the concurrent model below. *)
Record Collector := {
  options : Options;
  applianceInfos : gmap string ApplianceInfo;
}.

Definition NewCollector (opts : option Options) : Collector :=
  let opts := match opts with Some o => o | None => {| MolecularWeight := 0 |} end in
  let opts :=
    if (MolecularWeight opts =? 0)%float
    then {| MolecularWeight := 30.026 |} (* Formaldehyde (CH2O). *)
    else opts in
  {| options := opts; applianceInfos := ∅ |}.

Definition Describe : list Desc := [
  airPurifierConnected; airPurifierWorkmode; airPurifierDoorOpen;
  airPurifierUILight; airPurifierSafetyLock; airPurifierIonizer;
  airPurifierFilterLife; airPurifierFilterType; airPurifierRSSI;
  airPurifierFanspeed; airPurifierFanspeedMax; airPurifierFanspeedRaw;
  airPurifierTemperature; airPurifierHumidity; airPurifierPM1;
  airPurifierPM25; airPurifierPM10; airPurifierCO2; airPurifierTVOC;
  airPurifierVOCDensity
].

(** workmode converts the workmode string to a float64. *)
Definition workmode (s : string) : float :=
  if String.eqb s "PowerOff" then 0
  else if String.eqb s "Manual" then 1
  else if String.eqb s "Auto" then 2
  else if String.eqb s "Quiet" then 3
  else (-1).

Definition fanspeed (model : string) (speed : Z) : float * float * bool :=
  let known (max : float) := ((Float64.of_int speed / max)%float, max, true) in
  if String.eqb model "PUREA9" || String.eqb model "AX9" then known 9%float
  else if String.eqb model "WELLA5" || String.eqb model "AX5"
          || String.eqb model "WELLA7" || String.eqb model "AX7" then known 5%float
  else if String.eqb model "FLOWA3" || String.eqb model "AX3" then known 3%float
  else if String.eqb model "Muju" || String.eqb model "PURE500" then known 3%float
  else (0%float, 0%float, false).

Definition tvocPPBToVocDensity (ppb temperature : Z) (molecularWeight : float) : float :=
  ((101.325 * molecularWeight * Float64.of_int ppb)
   / (8.31446261815324 * (273.15 + Float64.of_int temperature)))%float.

Definition round (f : float) (decimals : Z) : float :=
  let shift := Float64.Pow10 decimals in
  (Float64.Round (f * shift) / shift)%float.

Definition boolToFloat64 (b : bool) : float :=
  if b then 1%float else 0%float.

(** *** The body of [Collect] *)

(** The closures [collectMetric], [maybeCollectIntMetric] and
    [maybeCollectBoolMetric], with the label values they capture made an
    argument. Each returns what it sends on the channel. *)
Definition collectMetric (labels : list string) (desc : Desc) (v : float) : list Metric :=
  [MustNewConstMetric desc v labels].

Definition maybeCollectIntMetric (labels : list string) (desc : Desc) (v : option Z) : list Metric :=
  match v with
  | Some x => collectMetric labels desc (Float64.of_int x)
  | None => []
  end.

Definition maybeCollectBoolMetric (labels : list string) (desc : Desc) (v : option bool) : list Metric :=
  match v with
  | Some b => collectMetric labels desc (boolToFloat64 b)
  | None => []
  end.

Definition notNil {A} (p : option A) : bool :=
  match p with Some _ => true | None => false end.

(** The local variable [filterLife] after its [switch]. *)
Definition filterLife (reported : Reported) : option Z :=
  let md := Metadata reported in
  if notNil (FilterLife1 reported) && notNil (FilterLife reported) then
    if After (LastUpdated (Metadata.FilterLife1 md)) (LastUpdated (Metadata.FilterLife md))
    then FilterLife1 reported
    else FilterLife reported
  else if notNil (FilterLife1 reported) then FilterLife1 reported
  else if notNil (FilterLife reported) then FilterLife reported
  else None.

(** The local variable [co2] after its [switch]. *)
Definition co2 (reported : Reported) : option Z :=
  let md := Metadata reported in
  if notNil (CO2 reported) && notNil (ECO2 reported) then
    if After (LastUpdated (Metadata.ECO2 md)) (LastUpdated (Metadata.CO2 md))
    then ECO2 reported
    else CO2 reported
  else if notNil (ECO2 reported) then ECO2 reported
  else if notNil (CO2 reported) then CO2 reported
  else None.

(** The label values of one appliance. *)
Definition applianceLabels (info : ApplianceInfo) (appliance : Appliance) : list string := [
  info_PNC info; Brand info; ProductArea info; DeviceType info; Model info;
  Variant info;
  String (applianceID appliance);
  ApplianceName (applianceData appliance);
  ModelName (applianceData appliance)
].

(** One iteration of the loop over the appliances, given the cached [info]
    of the appliance: the metrics it sends, in order. *)
Definition collectAppliance (c : Collector) (info : ApplianceInfo) (appliance : Appliance) : list Metric :=
  let reported := reported appliance in
  if negb (String.eqb (DeviceType info) "AIR_PURIFIER") then [] (* continue *)
  else
    let labels := applianceLabels info appliance in
    let collectMetric := collectMetric labels in
    let maybeCollectIntMetric := maybeCollectIntMetric labels in
    let maybeCollectBoolMetric := maybeCollectBoolMetric labels in
    collectMetric airPurifierConnected (boolToFloat64 (String.eqb (ConnectionState appliance) "Connected"))
    ++ collectMetric airPurifierWorkmode (workmode (Workmode reported))
    ++ maybeCollectBoolMetric airPurifierDoorOpen (DoorOpen reported)
    ++ maybeCollectBoolMetric airPurifierUILight (Some (UILight reported))
    ++ maybeCollectBoolMetric airPurifierSafetyLock (Some (SafetyLock reported))
    ++ maybeCollectBoolMetric airPurifierIonizer (Ionizer reported)
    ++ match filterLife reported with
       | Some v => collectMetric airPurifierFilterLife (Float64.of_int v / 100)%float
       | None => []
       end
    ++ maybeCollectIntMetric airPurifierFilterType (FilterType reported)
    ++ maybeCollectIntMetric airPurifierRSSI (RSSI reported)
    ++ (let '(fanspeed, fanspeedMax, ok) := fanspeed (ModelName (applianceData appliance)) (Fanspeed reported) in
        if ok then
          collectMetric airPurifierFanspeed (round fanspeed 2)
          ++ collectMetric airPurifierFanspeedMax fanspeedMax
        else [])
    ++ collectMetric airPurifierFanspeedRaw (Float64.of_int (Fanspeed reported))
    ++ match Temp reported with
       | Some t => collectMetric airPurifierTemperature (Float64.of_int t)
       | None => []
       end
    ++ match Humidity reported with
       | Some h => collectMetric airPurifierHumidity (Float64.of_int h / 100)%float
       | None => []
       end
    ++ match PM1 reported with
       | Some p => collectMetric airPurifierPM1 (Float64.of_int p)
       | None => []
       end
    ++ match PM25 reported, PM25Approximate reported with
       | Some p, _ => collectMetric airPurifierPM25 (Float64.of_int p)
       | None, Some p => collectMetric airPurifierPM25 (Float64.of_int p)
       | None, None => []
       end
    ++ maybeCollectIntMetric airPurifierPM10 (PM10 reported)
    ++ match TVOC reported with
       | Some tvoc =>
           let temperature := match Temp reported with Some t => t | None => 25 end in
           let vocDensity := tvocPPBToVocDensity tvoc temperature (MolecularWeight (options c)) in
           collectMetric airPurifierTVOC (Float64.of_int tvoc)
           ++ collectMetric airPurifierVOCDensity (round vocDensity 2)
       | None => []
       end
    ++ maybeCollectIntMetric airPurifierCO2 (co2 reported).

(** The identifiers of the listed appliances that have no cached info: the
    first loop of [Collect]. *)
Definition uncachedIDs (infos : gmap string ApplianceInfo) (appliances : list Appliance) : list string :=
  flat_map (fun appliance =>
    match infos !! PNC (applianceID appliance) with
    | Some _ => []
    | None => [String (applianceID appliance)]
    end) appliances.

(** [for _, info := range applianceInfo { c.applianceInfos[info.PNC] = info }] *)
Definition storeInfos (infos : gmap string ApplianceInfo) (applianceInfo : list ApplianceInfo) : gmap string ApplianceInfo :=
  foldl (fun m info => <[info_PNC info := info]> m) infos applianceInfo.

(** [c.applianceInfos[pnc]]: a missing key reads as the zero value. *)
Definition lookupInfo (infos : gmap string ApplianceInfo) (pnc : string) : ApplianceInfo :=
  default zeroApplianceInfo (infos !! pnc).

(** The last loop of [Collect]. *)
Definition collectAll (c : Collector) (appliances : list Appliance) : list Metric :=
  flat_map (fun appliance =>
    collectAppliance c (lookupInfo (applianceInfos c) (PNC (applianceID appliance))) appliance)
    appliances.

(** The calls a pass makes to the API client. *)
Inductive ApiCall :=
| CallAppliances
| CallAppliancesInfo (applianceIDs : list string).

(** What a pass leaves behind: the collector, the metrics sent on [ch] and
    the API calls made, both in order. *)
Record Pass := {
  collector_after : Collector;
  metrics : list Metric;
  calls : list ApiCall;
}.

Definition Collect (client : Client) (c : Collector) : Pass :=
  match Appliances client with
  | Error _ =>
      {| collector_after := c; metrics := []; calls := [CallAppliances] |}
  | Ok appliances =>
      let applianceIDs := uncachedIDs (applianceInfos c) appliances in
      if (0 <? Z.of_nat (length applianceIDs)) then
        match AppliancesInfo client applianceIDs with
        | Error _ =>
            {| collector_after := c; metrics := [];
               calls := [CallAppliances; CallAppliancesInfo applianceIDs] |}
        | Ok applianceInfo =>
            let c' := {| options := options c;
                         applianceInfos := storeInfos (applianceInfos c) applianceInfo |} in
            {| collector_after := c'; metrics := collectAll c' appliances;
               calls := [CallAppliances; CallAppliancesInfo applianceIDs] |}
        end
      else
        {| collector_after := c; metrics := collectAll c appliances;
           calls := [CallAppliances] |}
  end.

(** *** Reading the output of a pass *)

(** Two descriptors name the same metric when their fully-qualified names
    agree. *)
Definition sameMetric (d d' : Desc) : bool := String.eqb (fqName d) (fqName d').

(** The values sent for metric [d], in order. *)
Definition valuesOf (d : Desc) (ms : list Metric) : list float :=
  map value (List.filter (fun m => sameMetric d (desc m)) ms).

(** The number of batch info fetches among the API calls of a pass. *)
Definition infoFetches (cs : list ApiCall) : nat :=
  length (List.filter (fun c => match c with CallAppliancesInfo _ => true | _ => false end) cs).

(** The cached info [Collect] uses for an appliance. *)
Definition cachedInfo (c : Collector) (appliance : Appliance) : ApplianceInfo :=
  lookupInfo (applianceInfos c) (PNC (applianceID appliance)).

Definition supported (info : ApplianceInfo) : bool :=
  String.eqb (DeviceType info) "AIR_PURIFIER".

End collector.

(** ** Concurrent invocations of [Collect]

    Several goroutines call [Collect] on one shared [Collector], each with
    the answers the API client gives to its pass. Each goroutine is at a
    program point of the method; a step of the system is a step of one
    goroutine, and a schedule, the list of the goroutines that step in turn,
    is arbitrary. [c.mu.Lock()] returns only while the mutex is free; the
    deferred [c.mu.Unlock()] runs last on every path. *)

Module Concurrent.
Import ocpapi prometheus collector.

Inductive Point :=
| AtLock                                   (* in c.mu.Lock() *)
| AtAppliances                             (* c.client.Appliances(ctx, true) *)
| AtScan (appliances : list Appliance)     (* first loop, reads c.applianceInfos *)
| AtAppliancesInfo (appliances : list Appliance) (applianceIDs : list string)
| AtStore (appliances : list Appliance) (applianceInfo : list ApplianceInfo)
                                           (* c.applianceInfos[info.PNC] = info *)
| AtEmit (todo : list Appliance)           (* last loop, reads c.applianceInfos *)
| AtUnlock                                 (* deferred c.mu.Unlock() *)
| Returned.

(** What a goroutine does in a step. *)
Inductive Event :=
| EvLock
| EvCall (call : ApiCall)
| EvReadInfos
| EvWriteInfo (pnc : string)
| EvSend (ms : list Metric)
| EvLoopEnd
| EvUnlock.

Record Goroutine := {
  client : Client;      (* the answers of the API client to this pass *)
  point : Point;
}.

Record State := {
  mu : bool;                        (* c.mu is locked *)
  shared : Collector;               (* the collector all goroutines use *)
  goroutines : list Goroutine;
  trace : list (nat * Event);       (* who did what, oldest first *)
}.

Definition storeInfo (c : Collector) (info : ApplianceInfo) : Collector :=
  {| options := options c;
     applianceInfos := <[info_PNC info := info]> (applianceInfos c) |}.

(** The next step of a goroutine at point [p]: its next point, the mutex, the
    collector and the event; [None] when it cannot move, which is the case in
    [Lock] while the mutex is held, and after the return. *)
Definition next (client : Client) (p : Point) (locked : bool) (c : Collector) : option (Point * bool * Collector * Event) :=
  match p with
  | AtLock =>
      if locked then None else Some (AtAppliances, true, c, EvLock)
  | AtAppliances =>
      match Appliances client with
      | Ok appliances => Some (AtScan appliances, locked, c, EvCall CallAppliances)
      | Error _ => Some (AtUnlock, locked, c, EvCall CallAppliances)
      end
  | AtScan appliances =>
      let applianceIDs := uncachedIDs (applianceInfos c) appliances in
      if 0 <? Z.of_nat (length applianceIDs)
      then Some (AtAppliancesInfo appliances applianceIDs, locked, c, EvReadInfos)
      else Some (AtEmit appliances, locked, c, EvReadInfos)
  | AtAppliancesInfo appliances applianceIDs =>
      match AppliancesInfo client applianceIDs with
      | Ok applianceInfo =>
          Some (AtStore appliances applianceInfo, locked, c, EvCall (CallAppliancesInfo applianceIDs))
      | Error _ => Some (AtUnlock, locked, c, EvCall (CallAppliancesInfo applianceIDs))
      end
  | AtStore appliances (info :: rest) =>
      Some (AtStore appliances rest, locked, storeInfo c info, EvWriteInfo (info_PNC info))
  | AtStore appliances [] => Some (AtEmit appliances, locked, c, EvLoopEnd)
  | AtEmit (appliance :: rest) =>
      Some (AtEmit rest, locked, c,
            EvSend (collectAppliance c (cachedInfo c appliance) appliance))
  | AtEmit [] => Some (AtUnlock, locked, c, EvLoopEnd)
  | AtUnlock => Some (Returned, false, c, EvUnlock)
  | Returned => None
  end.

(** A step of goroutine [g]. *)
Definition step (g : nat) (s : State) : option State :=
  match goroutines s !! g with
  | Some gr =>
      match next (client gr) (point gr) (mu s) (shared s) with
      | Some (p, locked, c, ev) =>
          Some {| mu := locked; shared := c;
                  goroutines := <[g := {| client := client gr; point := p |}]> (goroutines s);
                  trace := trace s ++ [(g, ev)] |}
      | None => None
      end
  | None => None
  end.

(** The goroutines of [schedule] step in turn; [None] when one of them
    cannot. *)
Fixpoint run (schedule : list nat) (s : State) : option State :=
  match schedule with
  | [] => Some s
  | g :: schedule' =>
      match step g s with
      | Some s' => run schedule' s'
      | None => None
      end
  end.

(** One goroutine per client is about to call [Collect] on collector [c]. *)
Definition init (c : Collector) (clients : list Client) : State :=
  {| mu := false; shared := c;
     goroutines := map (fun cl => {| client := cl; point := AtLock |}) clients;
     trace := [] |}.

Definition reachable (c : Collector) (clients : list Client) (s : State) : Prop :=
  exists schedule, run schedule (init c clients) = Some s.

(** A goroutine is inside the body of [Collect] from the return of [Lock]
    to the deferred [Unlock]. *)
Definition inside (p : Point) : bool :=
  match p with
  | AtLock | Returned => false
  | _ => true
  end.

(** Reading a trace with the mutex in mind: [holder] is the goroutine whose
    pass is in progress, if any. A pass opens with [EvLock] when no pass is in
    progress, closes with its own [EvUnlock], and every event in between is
    by the same goroutine. The result is [None] as soon as an event breaks
    this discipline. *)
Fixpoint passes (holder : option nat) (t : list (nat * Event)) : option (option nat) :=
  match t with
  | [] => Some holder
  | (g, ev) :: t' =>
      match holder, ev with
      | None, EvLock => passes (Some g) t'
      | None, _ => None
      | Some h, EvLock => None
      | Some h, EvUnlock => if Nat.eqb h g then passes None t' else None
      | Some h, _ => if Nat.eqb h g then passes holder t' else None
      end
  end.

(** A goroutine running on its own for at most [fuel] steps from point [p]:
    where it stops, the mutex, the collector, and its events in order. *)
Fixpoint alone (fuel : nat) (client : Client) (p : Point) (locked : bool) (c : Collector) : Point * bool * Collector * list Event :=
  match fuel with
  | O => (p, locked, c, [])
  | S fuel' =>
      match next client p locked c with
      | Some (p', locked', c', ev) =>
          let '(q, l, d, evs) := alone fuel' client p' locked' c' in
          (q, l, d, ev :: evs)
      | None => (p, locked, c, [])
      end
  end.

(** The metrics sent and the API calls made in a list of events. *)
Definition sent (evs : list Event) : list Metric :=
  flat_map (fun ev => match ev with EvSend ms => ms | _ => [] end) evs.

Definition called (evs : list Event) : list ApiCall :=
  flat_map (fun ev => match ev with EvCall call => [call] | _ => [] end) evs.

(** From point [p] a goroutine running on its own returns with the mutex
    free, and what it does on the way is what pass [P] records. *)
Definition finishes (client : Client) (p : Point) (locked : bool) (c : Collector) (P : Pass) : Prop :=
  exists fuel evs,
    alone fuel client p locked c = (Returned, false, collector_after P, evs)
    /\ sent evs = metrics P
    /\ called evs = calls P.

(** The invariant of the mutex: while it is free no goroutine is inside
    [Collect] and the trace consists of complete passes; while it is locked
    exactly one goroutine is inside, and the trace ends with the events of the
    pass of that goroutine. *)
Definition locked_by (s : State) (h : option nat) : Prop :=
  match h with
  | None =>
      mu s = false
      /\ forall g gr, goroutines s !! g = Some gr -> inside (point gr) = false
  | Some h =>
      mu s = true
      /\ (exists gr, goroutines s !! h = Some gr /\ inside (point gr) = true)
      /\ forall g gr, g <> h -> goroutines s !! g = Some gr -> inside (point gr) = false
  end.

Definition mutex_invariant (s : State) : Prop :=
  exists h, locked_by s h /\ passes None (trace s) = Some h.

End Concurrent.

(** ** The specification's view of fan-speed normalization *)

Module Spec.

(** The fixed per-model table of maximum fan speeds, as the specification
    describes it: model names of two brand naming schemes, each with its
    maximum raw speed. *)
Definition fanspeedMaxTable : list (string * float) := [
  ("PUREA9", 9%float); ("AX9", 9%float);
  ("WELLA5", 5%float); ("AX5", 5%float); ("WELLA7", 5%float); ("AX7", 5%float);
  ("FLOWA3", 3%float); ("AX3", 3%float);
  ("Muju", 3%float); ("PURE500", 3%float)
].

Fixpoint lookupMax (table : list (string * float)) (model : string) : option float :=
  match table with
  | [] => None
  | (name, max) :: rest => if String.eqb model name then Some max else lookupMax rest model
  end.

(** Rounding to two decimals, as the collector's [round f 2] computes it. *)
Definition twoDecimals (f : float) : float := (Float64.Round (f * 100) / 100)%float.

(** The listed appliances whose identifier is not cached yet, by their
    identifier strings, in the order listed. *)
Definition uncached (infos : gmap string ocpapi.ApplianceInfo) (appliances : list ocpapi.Appliance) : list string :=
  map (fun a => ocpapi.String (ocpapi.applianceID a))
    (List.filter (fun a => negb (collector.notNil (infos !! ocpapi.PNC (ocpapi.applianceID a))))
       appliances).

End Spec.

(** ** Concrete inputs *)

Module Examples.
Import ocpapi prometheus collector.

Definition purifierInfo : ApplianceInfo :=
  {| info_PNC := "950011538"; Brand := "Electrolux"; ProductArea := "WELLBEING";
     DeviceType := "AIR_PURIFIER"; Model := "PUREA9"; Variant := "CADR400" |}.

Definition ovenInfo : ApplianceInfo :=
  {| info_PNC := "944188772"; Brand := "AEG"; ProductArea := "TASTE";
     DeviceType := "OVEN"; Model := "OV"; Variant := "B3" |}.

Definition purifierID : ApplianceID :=
  {| PNC := "950011538"; String := "950011538_00:31862190-443E07363DAB" |}.

Definition ovenID : ApplianceID :=
  {| PNC := "944188772"; String := "944188772_00:22405560-443E07112233" |}.

(** A connected Pure A9 reporting state [r]. *)
Definition purifier (r : Reported) : Appliance :=
  {| applianceID := purifierID; ConnectionState := "Connected";
     applianceData := {| ApplianceName := "Bedroom"; ModelName := "PUREA9" |};
     reported := r |}.

(** A connected purifier of a model the exporter does not know. *)
Definition unknownPurifier (r : Reported) : Appliance :=
  {| applianceID := purifierID; ConnectionState := "Connected";
     applianceData := {| ApplianceName := "Hallway"; ModelName := "PURE900" |};
     reported := r |}.

(** An oven reporting state [r]. *)
Definition oven (r : Reported) : Appliance :=
  {| applianceID := ovenID; ConnectionState := "Connected";
     applianceData := {| ApplianceName := "Kitchen"; ModelName := "OV" |};
     reported := r |}.

Definition stamps (filterLife1 filterLife eco2 co2 : Time) : Metadata.t :=
  {| Metadata.FilterLife1 := {| LastUpdated := filterLife1 |};
     Metadata.FilterLife := {| LastUpdated := filterLife |};
     Metadata.ECO2 := {| LastUpdated := eco2 |};
     Metadata.CO2 := {| LastUpdated := co2 |} |}.

(** A reported state with the given filter-life and CO2 readings and
    timestamps, a fan speed, a temperature and a TVOC reading; every other
    optional field is absent. *)
Definition readings (filterLife1 filterLife eco2 co2 : option Z) (md : Metadata.t)
    (speed : Z) (temp tvoc : option Z) : Reported :=
  {| Workmode := "Auto"; DoorOpen := None; UILight := false; SafetyLock := false;
     Ionizer := None; FilterLife1 := filterLife1; FilterLife := filterLife;
     FilterType := None; RSSI := None; Fanspeed := speed; Temp := temp;
     Humidity := None; PM1 := None; PM25 := None; PM25Approximate := None;
     PM10 := None; TVOC := tvoc; ECO2 := eco2; CO2 := co2;
     Metadata := md |}.

(** A state reporting the four boolean fields. *)
Definition switches (doorOpen : option bool) (uiLight safetyLock : bool) (ionizer : option bool) : Reported :=
  {| Workmode := "Auto"; DoorOpen := doorOpen; UILight := uiLight;
     SafetyLock := safetyLock; Ionizer := ionizer; FilterLife1 := None;
     FilterLife := None; FilterType := None; RSSI := None; Fanspeed := 0;
     Temp := None; Humidity := None; PM1 := None; PM25 := None;
     PM25Approximate := None; PM10 := None; TVOC := None; ECO2 := None;
     CO2 := None; Metadata := zeroMetadata |}.

(** A collector as [NewCollector] makes it, with default options. *)
Definition freshCollector : Collector := NewCollector None.

(** A client that lists [appliances] and answers the batch info request
    with [answer]. *)
Definition clientOf (appliances : list Appliance) (answer : result (list ApplianceInfo)) : Client :=
  {| Appliances := Ok appliances; AppliancesInfo := fun _ => answer |}.

(** A state reporting every sensor. *)
Definition everything : Reported :=
  {| Workmode := "Manual"; DoorOpen := Some false; UILight := true;
     SafetyLock := true; Ionizer := Some true; FilterLife1 := Some 60;
     FilterLife := Some 80; FilterType := Some 48; RSSI := Some (-52);
     Fanspeed := 3; Temp := Some 21; Humidity := Some 40; PM1 := Some 2;
     PM25 := Some 3; PM25Approximate := Some 4; PM10 := Some 5;
     TVOC := Some 100; ECO2 := Some 650; CO2 := Some 400;
     Metadata := stamps 20 10 20 10 |}.

(** Two goroutines call [Collect] with the same answers of the client; the
    first has acquired the mutex and fetched the list, the second has not
    moved. *)
Definition answers : Client := clientOf [purifier everything] (Ok [purifierInfo]).

Definition midPass : Concurrent.State :=
  {| Concurrent.mu := true;
     Concurrent.shared := freshCollector;
     Concurrent.goroutines :=
       [ {| Concurrent.client := answers;
            Concurrent.point := Concurrent.AtScan [purifier everything] |};
         {| Concurrent.client := answers; Concurrent.point := Concurrent.AtLock |} ];
     Concurrent.trace :=
       [ (0%nat, Concurrent.EvLock); (0%nat, Concurrent.EvCall CallAppliances) ] |}.

End Examples.

(** ** Package [main]: reading the configuration *)

Module main.

(** [os.Getenv]: the value of the variable, empty when it is not set. *)
Definition Getenv (environ : gmap string string) (key : string) : string :=
  default EmptyString (environ !! key).

(** [envOrDefault] appends to the package variable [availableEnvs], which is
    passed in and returned here, and yields the value of the variable, or
    [def] when that value is empty. *)
Definition envOrDefault (environ : gmap string string) (availableEnvs : list string)
    (env def : string) : list string * string :=
  let availableEnvs := availableEnvs ++ [env] in
  let v := Getenv environ env in
  if negb (String.eqb v EmptyString) then (availableEnvs, v) else (availableEnvs, def).

(** Several calls of [envOrDefault] in a row, as at the start of [main]:
    the final [availableEnvs] and the values, in call order. *)
Fixpoint envsOrDefaults (environ : gmap string string) (availableEnvs : list string)
    (queries : list (string * string)) : list string * list string :=
  match queries with
  | [] => (availableEnvs, [])
  | (env, def) :: rest =>
      let '(availableEnvs, v) := envOrDefault environ availableEnvs env def in
      let '(availableEnvs, vs) := envsOrDefaults environ availableEnvs rest in
      (availableEnvs, v :: vs)
  end.

End main.

(** ** Passes one after the other *)

Module Serial.
Import ocpapi collector Concurrent.

(** The goroutines that have released the mutex, in the order they did. *)
Definition released (t : list (nat * Event)) : list nat :=
  flat_map (fun e => match e with (g, EvUnlock) => [g] | _ => [] end) t.

(** [Collect] called by the goroutines of [order] one after the other, each
    with the answers of its own client: the collector at the end. *)
Definition inTurn (clients : list Client) (c : Collector) (order : list nat) : Collector :=
  foldl (fun c g =>
           match clients !! g with
           | Some cl => collector_after (Collect cl c)
           | None => c
           end) c order.

(** What holds of every reachable state: each goroutine keeps its client;
    while the mutex is free the shared collector is the one the finished
    passes give in turn; the goroutine inside [Collect] is on its way to the
    collector that one more pass gives. *)
Definition serial_invariant (c : Collector) (clients : list Client) (s : State) : Prop :=
  let finished := inTurn clients c (released (trace s)) in
  (forall g gr, goroutines s !! g = Some gr -> clients !! g = Some (client gr))
  /\ (mu s = false -> shared s = finished)
  /\ (forall g gr, goroutines s !! g = Some gr -> inside (point gr) = true ->
        exists fuel evs,
          alone fuel (client gr) (point gr) true (shared s)
          = (Returned, false, collector_after (Collect (client gr) finished), evs)).

(** The goroutines that have released the mutex are those that have
    returned, each once. *)
Definition released_invariant (s : State) : Prop :=
  NoDup (released (trace s))
  /\ forall g, In g (released (trace s))
       <-> exists gr, goroutines s !! g = Some gr /\ point gr = Returned.

End Serial.

(** ** Package [collector], continued: the signal strength mapping *)

Module signal.

(** [signalStrengthToRSSI]; its only call in [Collect] is commented out. *)
Definition signalStrengthToRSSI (s : string) : float :=
  if String.eqb s "EXCELLENT" then (-40)  (* [+, -50] dBm *)
  else if String.eqb s "GOOD" then (-50)  (* [-50, -60] dBm *)
  else if String.eqb s "FAIR" then (-60)  (* [-60, -70] dBm *)
  else if String.eqb s "WEAK" then (-70)  (* [-70, -] dBm *)
  else 0.

End signal.

(** ** Checking a range of integers *)

Module Range.

(** [P] holds of the [n] integers from [lo] on. *)
Fixpoint Zall (n : nat) (lo : Z) (P : Z -> bool) : bool :=
  match n with
  | O => true
  | S n' => P lo && Zall n' (lo + 1) P
  end.

(** The ratio the collector sends for a percentage: [float64(v) / 100]. *)
Definition percent (v : Z) : float := (Float64.of_int v / 100)%float.

(** A float between 0 and 1. *)
Definition unit_interval (x : float) : bool := ((0 <=? x) && (x <=? 1))%float.

End Range.

(** ** More concrete inputs *)

Module Examples2.
Import ocpapi prometheus collector Concurrent Examples.

Definition twoCallers : State := init freshCollector [answers; answers].

(** Both callers have returned, the first before the second. *)
Definition bothReturned : State :=
  default twoCallers (run (replicate 9 0 ++ replicate 6 1)%nat twoCallers).

(** A filter reported at 150 percent. *)
Definition overfull : Reported :=
  readings None (Some 150) None None zeroMetadata 0 None None.

End Examples2.

(** * Properties *)

Import ocpapi prometheus collector Examples.

(** ** Reading the metrics of one appliance *)

Lemma valuesOf_app d ms1 ms2 :
  valuesOf d (ms1 ++ ms2) = valuesOf d ms1 ++ valuesOf d ms2.
Proof. unfold valuesOf. now rewrite List.filter_app, map_app. Qed.

Lemma valuesOf_collectMetric d ls d' v :
  valuesOf d (collectMetric ls d' v) = if sameMetric d d' then [v] else [].
Proof. unfold valuesOf, collectMetric. simpl. now destruct (sameMetric d d'). Qed.

(** Every descriptor is declared with the nine label names and every metric
    carries nine label values, so [MustNewConstMetric] never panics. *)
Lemma labels_arity info appliance :
  Forall (fun d => length (variableLabels d) = length (applianceLabels info appliance)) Describe.
Proof. repeat constructor. Qed.

Lemma collectAppliance_labels c info appliance m :
  In m (collectAppliance c info appliance) ->
  labelValues m = applianceLabels info appliance.
Proof.
  unfold collectAppliance.
  destruct (negb _); [intros []|].
  cbv zeta. rewrite !in_app_iff.
  unfold maybeCollectBoolMetric, maybeCollectIntMetric, collectMetric, MustNewConstMetric.
  intros H.
  repeat match type of H with _ \/ _ => destruct H as [H|H] end;
    repeat case_match; simpl in H; rewrite ?in_app_iff in H; simpl in H;
    repeat match type of H with _ \/ _ => destruct H as [H|H] end;
    try contradiction; subst m; reflexivity.
Qed.

(** The metrics an unsupported appliance sends: none. *)
Lemma collectAppliance_unsupported c info appliance :
  supported info = false -> collectAppliance c info appliance = [].
Proof. unfold supported, collectAppliance. now intros ->. Qed.

(** Unfolds the body of the loop for a supported appliance and splits the
    values of metric [d] statement by statement. *)
Ltac split_statements H :=
  unfold collectAppliance; unfold supported in H; rewrite H; cbv zeta;
  simpl negb; cbv iota; rewrite !valuesOf_app.

(** Rewrites to [[]] the values of every statement that sends no value of
    the metric in question. *)
Ltac drop_others :=
  repeat match goal with
  | |- context [valuesOf ?d ?p] =>
      let E := fresh in
      assert (E : valuesOf d p = [])
        by (clear; unfold maybeCollectBoolMetric, maybeCollectIntMetric;
            repeat case_match; reflexivity);
      rewrite E; clear E
  end;
  simpl app; rewrite ?app_nil_r.

(** C1 (as amended). For an appliance of the supported device type: door open
    and ionizer are optional and yield one sample, 1 when reported true and 0
    when reported false, and no sample when absent; UI light and safety lock
    are plain booleans and always yield one sample, 1 when true and 0 when
    false. *)
Theorem bool_sensor_samples c info appliance :
  supported info = true ->
  let r := reported appliance in
  let out := collectAppliance c info appliance in
  valuesOf airPurifierDoorOpen out
    = match DoorOpen r with Some true => [1%float] | Some false => [0%float] | None => [] end
  /\ valuesOf airPurifierIonizer out
    = match Ionizer r with Some true => [1%float] | Some false => [0%float] | None => [] end
  /\ valuesOf airPurifierUILight out = [if UILight r then 1%float else 0%float]
  /\ valuesOf airPurifierSafetyLock out = [if SafetyLock r then 1%float else 0%float].
Proof.
  intros Hs r out. subst out r.
  repeat split; split_statements Hs; drop_others.
  - now destruct (DoorOpen _) as [[]|].
  - now destruct (Ionizer _) as [[]|].
  - now destruct (UILight _).
  - now destruct (SafetyLock _).
Qed.

Lemma bool_sensor_samples_witness :
  valuesOf airPurifierDoorOpen
    (collectAppliance freshCollector purifierInfo (purifier (switches (Some true) false true None)))
    = [1%float]
  /\ valuesOf airPurifierIonizer
    (collectAppliance freshCollector purifierInfo (purifier (switches (Some true) false true None)))
    = [].
Proof.
  destruct (bool_sensor_samples freshCollector purifierInfo
              (purifier (switches (Some true) false true None)) eq_refl)
    as (Hdoor & Hion & _).
  split; [exact Hdoor | exact Hion].
Defined.

(** C1, counterexample. An appliance of the supported type that reports
    nothing at all (the zero [Reported] state: no UI light, no safety lock
    field) still gets a UI light sample and a safety lock sample, both 0. *)
Lemma unreported_switches_are_sampled :
  valuesOf airPurifierUILight
    (collectAppliance freshCollector purifierInfo (purifier zeroReported)) = [0%float]
  /\ valuesOf airPurifierSafetyLock
    (collectAppliance freshCollector purifierInfo (purifier zeroReported)) = [0%float].
Proof. split; reflexivity. Qed.

(** ** Filter life and CO2: two readings, one sample *)

(** C3. Filter life of a supported appliance: with both readings present the
    one with the later timestamp is sent, with exactly one present that one
    is sent, with none present nothing is sent; the value sent is the chosen
    integer divided by 100. *)
Theorem filter_life_resolution c info appliance :
  supported info = true ->
  let r := reported appliance in
  let t1 := LastUpdated (Metadata.FilterLife1 (Metadata r)) in
  let t := LastUpdated (Metadata.FilterLife (Metadata r)) in
  let sent := valuesOf airPurifierFilterLife (collectAppliance c info appliance) in
  (forall x y, FilterLife1 r = Some x -> FilterLife r = Some y ->
     (t < t1 -> sent = [(Float64.of_int x / 100)%float])
     /\ (t1 < t -> sent = [(Float64.of_int y / 100)%float]))
  /\ (forall x, FilterLife1 r = Some x -> FilterLife r = None ->
        sent = [(Float64.of_int x / 100)%float])
  /\ (forall y, FilterLife1 r = None -> FilterLife r = Some y ->
        sent = [(Float64.of_int y / 100)%float])
  /\ (FilterLife1 r = None -> FilterLife r = None -> sent = []).
Proof.
  intros Hs r t1 t sent. subst sent t1 t r.
  split_statements Hs; drop_others.
  unfold filterLife, After.
  repeat split; intros; repeat match goal with E : _ = _ |- _ => rewrite E end;
    simpl; try reflexivity.
  - now replace (_ <? _) with true by (symmetry; apply Z.ltb_lt; assumption).
  - now replace (_ <? _) with false by (symmetry; apply Z.ltb_ge; lia).
Qed.

(** Reading A = 80 updated at 10 and reading B = 60 updated at 20, in either
    role, resolve to 60, sent as 0.60. *)
Lemma filter_life_resolution_witness :
  valuesOf airPurifierFilterLife
    (collectAppliance freshCollector purifierInfo
       (purifier (readings (Some 60) (Some 80) None None (stamps 20 10 0 0) 0 None None)))
    = [0.6%float]
  /\ valuesOf airPurifierFilterLife
    (collectAppliance freshCollector purifierInfo
       (purifier (readings (Some 80) (Some 60) None None (stamps 10 20 0 0) 0 None None)))
    = [0.6%float].
Proof.
  split.
  - apply (proj1 (proj1 (filter_life_resolution freshCollector purifierInfo
       (purifier (readings (Some 60) (Some 80) None None (stamps 20 10 0 0) 0 None None))
       eq_refl) 60 80 eq_refl eq_refl)).
    reflexivity.
  - apply (proj2 (proj1 (filter_life_resolution freshCollector purifierInfo
       (purifier (readings (Some 80) (Some 60) None None (stamps 10 20 0 0) 0 None None))
       eq_refl) 80 60 eq_refl eq_refl)).
    reflexivity.
Defined.

(** C8. CO2 of a supported appliance follows the same law on its own pair of
    readings and timestamps: with both present the later one is sent, with
    exactly one present that one, with none present nothing. *)
Theorem co2_resolution c info appliance :
  supported info = true ->
  let r := reported appliance in
  let te := LastUpdated (Metadata.ECO2 (Metadata r)) in
  let t := LastUpdated (Metadata.CO2 (Metadata r)) in
  let sent := valuesOf airPurifierCO2 (collectAppliance c info appliance) in
  (forall x y, ECO2 r = Some x -> CO2 r = Some y ->
     (t < te -> sent = [Float64.of_int x])
     /\ (te < t -> sent = [Float64.of_int y]))
  /\ (forall x, ECO2 r = Some x -> CO2 r = None -> sent = [Float64.of_int x])
  /\ (forall y, ECO2 r = None -> CO2 r = Some y -> sent = [Float64.of_int y])
  /\ (ECO2 r = None -> CO2 r = None -> sent = []).
Proof.
  intros Hs r te t sent. subst sent te t r.
  split_statements Hs; drop_others.
  unfold co2, After.
  repeat split; intros; repeat match goal with E : _ = _ |- _ => rewrite E end;
    simpl; try reflexivity.
  - now replace (_ <? _) with true by (symmetry; apply Z.ltb_lt; assumption).
  - now replace (_ <? _) with false by (symmetry; apply Z.ltb_ge; lia).
Qed.

(** CO2 = 400 updated at 10 and ECO2 = 650 updated at 20 send 650, whatever
    the filter-life readings and their timestamps say. *)
Lemma co2_resolution_witness :
  valuesOf airPurifierCO2
    (collectAppliance freshCollector purifierInfo
       (purifier (readings (Some 60) (Some 80) (Some 650) (Some 400) (stamps 5 30 20 10) 0 None None)))
    = [650%float].
Proof.
  apply (proj1 (proj1 (co2_resolution freshCollector purifierInfo
     (purifier (readings (Some 60) (Some 80) (Some 650) (Some 400) (stamps 5 30 20 10) 0 None None))
     eq_refl) 650 400 eq_refl eq_refl)).
  reflexivity.
Defined.

(** C10. With both readings of a pair present and their timestamps equal,
    the primary reading is sent: FilterLife rather than FilterLife1, CO2
    rather than ECO2. *)
Theorem equal_timestamps_choose_primary c info appliance :
  supported info = true ->
  let r := reported appliance in
  let out := collectAppliance c info appliance in
  (forall x y, FilterLife1 r = Some x -> FilterLife r = Some y ->
     LastUpdated (Metadata.FilterLife1 (Metadata r)) = LastUpdated (Metadata.FilterLife (Metadata r)) ->
     filterLife r = FilterLife r
     /\ valuesOf airPurifierFilterLife out = [(Float64.of_int y / 100)%float])
  /\ (forall x y, ECO2 r = Some x -> CO2 r = Some y ->
     LastUpdated (Metadata.ECO2 (Metadata r)) = LastUpdated (Metadata.CO2 (Metadata r)) ->
     co2 r = CO2 r
     /\ valuesOf airPurifierCO2 out = [Float64.of_int y]).
Proof.
  intros Hs r out. subst out r. split; intros x y H1 H2 Ht.
  - assert (E : filterLife (reported appliance) = Some y).
    { unfold filterLife, After. rewrite H1, H2, Ht, Z.ltb_irrefl. reflexivity. }
    split; [congruence|].
    split_statements Hs; drop_others. now rewrite E.
  - assert (E : co2 (reported appliance) = Some y).
    { unfold co2, After. rewrite H1, H2, Ht, Z.ltb_irrefl. reflexivity. }
    split; [congruence|].
    split_statements Hs; drop_others. now rewrite E.
Qed.

(** FilterLife1 = 60 and FilterLife = 80, both updated at 7: 0.80 is sent.
    ECO2 = 650 and CO2 = 400, both updated at 9: 400 is sent. *)
Lemma equal_timestamps_choose_primary_witness :
  valuesOf airPurifierFilterLife
    (collectAppliance freshCollector purifierInfo
       (purifier (readings (Some 60) (Some 80) (Some 650) (Some 400) (stamps 7 7 9 9) 0 None None)))
    = [0.8%float]
  /\ valuesOf airPurifierCO2
    (collectAppliance freshCollector purifierInfo
       (purifier (readings (Some 60) (Some 80) (Some 650) (Some 400) (stamps 7 7 9 9) 0 None None)))
    = [400%float].
Proof.
  pose proof (equal_timestamps_choose_primary freshCollector purifierInfo
     (purifier (readings (Some 60) (Some 80) (Some 650) (Some 400) (stamps 7 7 9 9) 0 None None))
     eq_refl) as [Hf Hc].
  split.
  - apply (proj2 (Hf 60 80 eq_refl eq_refl eq_refl)).
  - apply (proj2 (Hc 650 400 eq_refl eq_refl eq_refl)).
Defined.

(** ** TVOC and fan speed: unit conversions *)

Lemma round_two_decimals f : round f 2 = Spec.twoDecimals f.
Proof. reflexivity. Qed.

(** C4. For a supported appliance with a TVOC reading, the VOC density sent is
    (101.325 x molecular weight x ppb) / (8.31446261815324 x (273.15 + T)),
    rounded to two decimals, with T the reported temperature, or 25 when no
    temperature is reported; so an absent temperature gives the same density
    as a reported 25. Without a TVOC reading no density is sent. *)
Theorem voc_density c info appliance :
  supported info = true ->
  let r := reported appliance in
  let sent := valuesOf airPurifierVOCDensity (collectAppliance c info appliance) in
  let mw := MolecularWeight (options c) in
  (forall ppb, TVOC r = Some ppb ->
     (forall t, Temp r = Some t ->
        sent = [Spec.twoDecimals
                  ((101.325 * mw * Float64.of_int ppb)
                   / (8.31446261815324 * (273.15 + Float64.of_int t)))%float])
     /\ (Temp r = None ->
        sent = [Spec.twoDecimals
                  ((101.325 * mw * Float64.of_int ppb)
                   / (8.31446261815324 * (273.15 + Float64.of_int 25)))%float])
     /\ (forall appliance', TVOC (reported appliance') = Some ppb ->
          Temp r = None -> Temp (reported appliance') = Some 25 ->
          valuesOf airPurifierVOCDensity (collectAppliance c info appliance') = sent))
  /\ (TVOC r = None -> sent = []).
Proof.
  intros Hs r sent mw. subst sent mw r.
  assert (Hsent : forall a ppb, TVOC (reported a) = Some ppb ->
    valuesOf airPurifierVOCDensity (collectAppliance c info a)
    = [round (tvocPPBToVocDensity ppb
                (match Temp (reported a) with Some t => t | None => 25 end)
                (MolecularWeight (options c))) 2]).
  { intros a ppb Hp. split_statements Hs; drop_others. now rewrite Hp. }
  split.
  - intros ppb Hp. repeat split.
    + intros t Ht. rewrite (Hsent _ _ Hp), Ht. reflexivity.
    + intros Ht. rewrite (Hsent _ _ Hp), Ht. reflexivity.
    + intros a' Hp' Ht Ht'. rewrite (Hsent _ _ Hp), (Hsent _ _ Hp'), Ht, Ht'. reflexivity.
  - intros Hp. split_statements Hs; drop_others. now rewrite Hp.
Qed.

(** 100 ppb at the default molecular weight 30.026 and no reported
    temperature: 122.73, the same as with a reported 25. *)
Lemma voc_density_witness :
  valuesOf airPurifierVOCDensity
    (collectAppliance freshCollector purifierInfo
       (purifier (readings None None None None zeroMetadata 0 None (Some 100))))
    = [122.73%float]
  /\ valuesOf airPurifierVOCDensity
    (collectAppliance freshCollector purifierInfo
       (purifier (readings None None None None zeroMetadata 0 (Some 25) (Some 100))))
    = [122.73%float].
Proof.
  pose proof (proj1 (voc_density freshCollector purifierInfo
     (purifier (readings None None None None zeroMetadata 0 None (Some 100))) eq_refl)
     100 eq_refl) as (_ & Habsent & Hsame).
  split.
  - rewrite (Habsent eq_refl). reflexivity.
  - rewrite (Hsame
      (purifier (readings None None None None zeroMetadata 0 (Some 25) (Some 100)))
      eq_refl eq_refl eq_refl).
    rewrite (Habsent eq_refl). reflexivity.
Defined.

(** [fanspeed] is a lookup in the table of maxima. *)
Lemma fanspeed_table model speed :
  fanspeed model speed
  = match Spec.lookupMax Spec.fanspeedMaxTable model with
    | Some max => ((Float64.of_int speed / max)%float, max, true)
    | None => (0%float, 0%float, false)
    end.
Proof.
  unfold fanspeed. simpl.
  repeat match goal with
  | |- context [String.eqb model ?k] => destruct (String.eqb model k); simpl; try reflexivity
  end.
Qed.

(** C5. Fan speed of a supported appliance is decided by the model name and
    the raw speed: for a model of the table, with maximum [max], the ratio
    raw / max rounded to two decimals is sent and [max] is sent as a sample
    of its own; for any other model name neither is sent. *)
Theorem fan_speed_normalization c info appliance :
  supported info = true ->
  let model := ModelName (applianceData appliance) in
  let speed := Fanspeed (reported appliance) in
  let out := collectAppliance c info appliance in
  match Spec.lookupMax Spec.fanspeedMaxTable model with
  | Some max =>
      fanspeed model speed = ((Float64.of_int speed / max)%float, max, true)
      /\ valuesOf airPurifierFanspeed out = [Spec.twoDecimals (Float64.of_int speed / max)%float]
      /\ valuesOf airPurifierFanspeedMax out = [max]
  | None =>
      snd (fanspeed model speed) = false
      /\ valuesOf airPurifierFanspeed out = []
      /\ valuesOf airPurifierFanspeedMax out = []
  end.
Proof.
  intros Hs model speed out. subst out.
  assert (Hf := fanspeed_table model speed).
  destruct (Spec.lookupMax _ _) as [max|].
  - split; [exact Hf|].
    split; split_statements Hs; drop_others; fold model speed; now rewrite Hf.
  - split; [now rewrite Hf|].
    split; split_statements Hs; drop_others; fold model speed; now rewrite Hf.
Qed.

(** A Pure A9 (maximum 9) at raw speed 3 sends the ratio 0.33 and the
    maximum 9. *)
Lemma fan_speed_normalization_witness :
  valuesOf airPurifierFanspeed
    (collectAppliance freshCollector purifierInfo
       (purifier (readings None None None None zeroMetadata 3 None None)))
    = [0.33%float]
  /\ valuesOf airPurifierFanspeedMax
    (collectAppliance freshCollector purifierInfo
       (purifier (readings None None None None zeroMetadata 3 None None)))
    = [9%float].
Proof.
  pose proof (fan_speed_normalization freshCollector purifierInfo
     (purifier (readings None None None None zeroMetadata 3 None None)) eq_refl)
    as (_ & Hratio & Hmax).
  split; [rewrite Hratio; reflexivity | exact Hmax].
Defined.

(** A purifier of a model that is not in the table sends neither a ratio nor
    a maximum, only the raw speed. *)
Example unknown_model_sends_raw_speed_only :
  let out := collectAppliance freshCollector purifierInfo (unknownPurifier everything) in
  valuesOf airPurifierFanspeed out = []
  /\ valuesOf airPurifierFanspeedMax out = []
  /\ valuesOf airPurifierFanspeedRaw out = [3%float].
Proof. repeat split. Qed.

(** ** A whole pass *)

Lemma uncachedIDs_spec infos appliances :
  uncachedIDs infos appliances = Spec.uncached infos appliances.
Proof.
  unfold uncachedIDs, Spec.uncached.
  induction appliances as [|a l IH]; [reflexivity|].
  simpl. destruct (infos !! _); simpl; now rewrite IH.
Qed.

Lemma uncachedIDs_nil infos appliances :
  uncachedIDs infos appliances = [] <->
  forall a, In a appliances -> is_Some (infos !! PNC (applianceID a)).
Proof.
  unfold uncachedIDs. induction appliances as [|a l IH]; simpl.
  - split; [intros _ ? [] | reflexivity].
  - destruct (infos !! PNC (applianceID a)) as [i|] eqn:E; simpl.
    + rewrite IH. split.
      * intros H b [<-|Hb]; [rewrite E; eauto | auto].
      * intros H b Hb. auto.
    + split; [discriminate|].
      intros H. destruct (H a (or_introl eq_refl)) as [i Hi]. congruence.
Qed.

Lemma storeInfos_lookup infos applianceInfo pnc :
  is_Some (storeInfos infos applianceInfo !! pnc) <->
  is_Some (infos !! pnc) \/ exists info, In info applianceInfo /\ info_PNC info = pnc.
Proof.
  unfold storeInfos. revert infos.
  induction applianceInfo as [|i l IH]; intros infos; simpl.
  - split; [auto | intros [H|(? & [] & _)]; exact H].
  - rewrite IH. destruct (decide (info_PNC i = pnc)) as [<-|Hne].
    + rewrite lookup_insert_eq. split.
      * intros _. right. exists i. auto.
      * intros _. left. eauto.
    + rewrite lookup_insert_ne by exact Hne. split.
      * intros [H|(j & Hj & Hp)]; [auto | right; exists j; auto].
      * intros [H|(j & [->|Hj] & Hp)]; [auto | contradiction | right; exists j; auto].
Qed.

(** The length test of [Collect] is a test for the empty list. *)
Lemma nonempty_test {A} (l : list A) :
  (0 <? Z.of_nat (length l)) = match l with [] => false | _ => true end.
Proof. destruct l; [reflexivity|]. apply Z.ltb_lt. simpl. lia. Qed.

(** The metrics of a pass are those of the last loop over the listed
    appliances, run on the collector the pass leaves behind, or none. *)
Lemma Collect_metrics client c :
  let p := Collect client c in
  metrics p = []
  \/ exists appliances, Appliances client = Ok appliances
       /\ metrics p = collectAll (collector_after p) appliances.
Proof.
  unfold Collect.
  destruct (Appliances client) as [appliances|err]; [|now left].
  destruct (0 <? _).
  - destruct (AppliancesInfo client _); [right; eauto | now left].
  - right. eauto.
Qed.

(** Skipping the unsupported appliances does not change what the last loop
    sends. *)
Lemma collectAll_supported c appliances :
  collectAll c appliances
  = collectAll c (List.filter (fun a => supported (cachedInfo c a)) appliances).
Proof.
  unfold collectAll. induction appliances as [|a l IH]; [reflexivity|].
  simpl. fold (cachedInfo c a).
  destruct (supported (cachedInfo c a)) eqn:Hs; simpl.
  - fold (cachedInfo c a). now rewrite IH.
  - now rewrite (collectAppliance_unsupported _ _ _ Hs).
Qed.

(** C2. In every pass, a listed appliance whose cached device type is not
    AIR_PURIFIER sends no metric, whatever its reported state holds: each
    metric of the pass comes from a listed appliance whose cached device type
    is AIR_PURIFIER and carries that device type as its label, and dropping
    the other appliances from the list leaves the metrics as they are. *)
Theorem unsupported_appliances_send_nothing client c appliances :
  Appliances client = Ok appliances ->
  let p := Collect client c in
  let c' := collector_after p in
  (forall a, DeviceType (cachedInfo c' a) <> "AIR_PURIFIER" ->
     collectAppliance c' (cachedInfo c' a) a = [])
  /\ (forall m, In m (metrics p) ->
        exists a, In a appliances
          /\ DeviceType (cachedInfo c' a) = "AIR_PURIFIER"
          /\ In m (collectAppliance c' (cachedInfo c' a) a)
          /\ nth 3 (labelValues m) EmptyString = "AIR_PURIFIER")
  /\ collectAll c' appliances
     = collectAll c' (List.filter (fun a => supported (cachedInfo c' a)) appliances).
Proof.
  intros Hl p c'.
  assert (Hskip : forall a, DeviceType (cachedInfo c' a) <> "AIR_PURIFIER" ->
            collectAppliance c' (cachedInfo c' a) a = []).
  { intros a Hd. apply collectAppliance_unsupported.
    unfold supported. now apply String.eqb_neq. }
  split; [exact Hskip|]. split.
  - intros m Hm.
    destruct (Collect_metrics client c) as [E|(l & Hl' & E)]; fold p in E.
    { rewrite E in Hm. destruct Hm. }
    rewrite Hl in Hl'. injection Hl' as <-. fold c' in E.
    rewrite E in Hm. apply in_flat_map in Hm as (a & Ha & Hm).
    fold (cachedInfo c' a) in Hm.
    exists a. split; [exact Ha|].
    destruct (String.eqb_spec (DeviceType (cachedInfo c' a)) "AIR_PURIFIER") as [Hd|Hd].
    + repeat split; try assumption.
      rewrite (collectAppliance_labels _ _ _ _ Hm). exact Hd.
    + rewrite (Hskip a Hd) in Hm. destruct Hm.
  - apply collectAll_supported.
Qed.

(** An oven and a purifier are listed, neither cached; the oven reports every
    sensor. The pass sends the metrics of the purifier only. *)
Lemma unsupported_appliances_send_nothing_witness :
  let client := clientOf [oven everything; purifier everything] (Ok [ovenInfo; purifierInfo]) in
  let p := Collect client freshCollector in
  collectAppliance (collector_after p) (cachedInfo (collector_after p) (oven everything))
    (oven everything) = []
  /\ metrics p
     = collectAppliance (collector_after p) purifierInfo (purifier everything).
Proof.
  intros client p.
  destruct (unsupported_appliances_send_nothing client freshCollector
              [oven everything; purifier everything] eq_refl) as (Hskip & _ & Hall).
  split.
  - apply Hskip. vm_compute. discriminate.
  - vm_compute. reflexivity.
Defined.

(** ** Failed fetches and the info cache *)

(** C6. When the appliance list cannot be fetched, or the batch info fetch
    that the pass makes fails, the pass ends at once: it returns, having sent
    no metric and left the collector, and so the info cache, as it was. *)
Theorem fetch_error_aborts_pass client c :
  (forall err, Appliances client = Error err ->
     Collect client c
     = {| collector_after := c; metrics := []; calls := [CallAppliances] |})
  /\ (forall appliances err,
        Appliances client = Ok appliances ->
        uncachedIDs (applianceInfos c) appliances <> [] ->
        AppliancesInfo client (uncachedIDs (applianceInfos c) appliances) = Error err ->
        Collect client c
        = {| collector_after := c; metrics := [];
             calls := [CallAppliances;
                       CallAppliancesInfo (uncachedIDs (applianceInfos c) appliances)] |}).
Proof.
  split.
  - intros err H. unfold Collect. now rewrite H.
  - intros appliances err Hl Hne Hi. unfold Collect. rewrite Hl, nonempty_test.
    destruct (uncachedIDs _ _) eqn:E; [contradiction|]. now rewrite Hi.
Qed.

(** A failing list fetch, and a failing info fetch for an uncached purifier. *)
Lemma fetch_error_aborts_pass_witness :
  let down := {| Appliances := Error "timeout"; AppliancesInfo := fun _ => Ok [purifierInfo] |} in
  let halfDown := clientOf [purifier everything] (Error "timeout") in
  (metrics (Collect down freshCollector) = []
   /\ collector_after (Collect down freshCollector) = freshCollector)
  /\ (metrics (Collect halfDown freshCollector) = []
      /\ collector_after (Collect halfDown freshCollector) = freshCollector).
Proof.
  intros down halfDown. split.
  - rewrite (proj1 (fetch_error_aborts_pass down freshCollector) "timeout" eq_refl).
    split; reflexivity.
  - assert (Hne : uncachedIDs (applianceInfos freshCollector) [purifier everything] <> [])
      by (vm_compute; discriminate).
    rewrite (proj2 (fetch_error_aborts_pass halfDown freshCollector)
               [purifier everything] "timeout" eq_refl Hne eq_refl).
    split; reflexivity.
Defined.

(** C7 (as amended). A pass that lists the appliances requests the batch info
    for exactly the listed appliances whose identifier is not cached, and
    makes no info call when there is none. If that fetch, when made, succeeds
    and returns an info for the identifier of every appliance it was made
    for, a second pass over the same list makes no info call and leaves the
    cache as it is, so that both passes together fetch at most once. *)
Theorem info_fetch_only_for_uncached client c appliances :
  Appliances client = Ok appliances ->
  let ids := Spec.uncached (applianceInfos c) appliances in
  let p := Collect client c in
  calls p = CallAppliances :: match ids with [] => [] | _ => [CallAppliancesInfo ids] end
  /\ forall client2,
       Appliances client2 = Ok appliances ->
       (ids <> [] ->
        exists applianceInfo,
          AppliancesInfo client ids = Ok applianceInfo
          /\ forall a, In a appliances ->
               applianceInfos c !! PNC (applianceID a) = None ->
               exists info, In info applianceInfo /\ info_PNC info = PNC (applianceID a)) ->
       let p2 := Collect client2 (collector_after p) in
       calls p2 = [CallAppliances]
       /\ collector_after p2 = collector_after p
       /\ (infoFetches (calls p ++ calls p2) <= 1)%nat.
Proof.
  intros Hl ids p.
  assert (Hcalls : calls p
    = CallAppliances :: match ids with [] => [] | _ => [CallAppliancesInfo ids] end).
  { subst p ids. unfold Collect. rewrite Hl, nonempty_test, <- uncachedIDs_spec.
    destruct (uncachedIDs _ _); [reflexivity|].
    now destruct (AppliancesInfo client _). }
  split; [exact Hcalls|].
  intros client2 Hl2 Hfetch p2.
  assert (Hcached : uncachedIDs (applianceInfos (collector_after p)) appliances = []).
  { apply uncachedIDs_nil. intros a Ha.
    subst p ids. unfold Collect. rewrite Hl, nonempty_test.
    rewrite <- uncachedIDs_spec in Hfetch.
    destruct (uncachedIDs (applianceInfos c) appliances) as [|i l] eqn:E.
    - simpl. now apply (proj1 (uncachedIDs_nil _ _) E).
    - destruct Hfetch as (infos & Hi & Hcover); [discriminate|].
      rewrite Hi. simpl. apply storeInfos_lookup.
      destruct (applianceInfos c !! PNC (applianceID a)) eqn:Ec; [left; eauto|].
      right. now apply Hcover. }
  assert (Hp2 : p2 = {| collector_after := collector_after p;
                        metrics := collectAll (collector_after p) appliances;
                        calls := [CallAppliances] |}).
  { subst p2. unfold Collect at 1. now rewrite Hl2, nonempty_test, Hcached. }
  rewrite Hp2, Hcalls. repeat split.
  clear. destruct ids; cbn; lia.
Qed.

(** A purifier is listed and not cached; the first pass fetches its info, the
    second pass does not and keeps the cache. *)
Lemma info_fetch_only_for_uncached_witness :
  let client := clientOf [purifier everything] (Ok [purifierInfo]) in
  let p := Collect client freshCollector in
  let p2 := Collect client (collector_after p) in
  calls p = [CallAppliances; CallAppliancesInfo [String purifierID]]
  /\ calls p2 = [CallAppliances]
  /\ collector_after p2 = collector_after p.
Proof.
  intros client p p2.
  destruct (info_fetch_only_for_uncached client freshCollector [purifier everything] eq_refl)
    as (Hcalls & Hsecond).
  split; [exact Hcalls|].
  destruct (Hsecond client eq_refl) as (Hc2 & Hsame & _).
  - intros _. exists [purifierInfo]. split; [reflexivity|].
    intros a [<-|[]] _. exists purifierInfo. split; [now left | reflexivity].
  - split; [exact Hc2 | exact Hsame].
Defined.

(** C7, counterexample. Two successive passes over the same one-appliance
    list fetch the batch info twice when the first fetch fails, and also when
    it succeeds without an info for the listed appliance; in both cases the
    second pass repeats the request of the first. *)
Lemma second_pass_fetches_again :
  let failing := clientOf [purifier everything] (Error "timeout") in
  let silent := clientOf [purifier everything] (Ok []) in
  let twoPasses client :=
    calls (Collect client freshCollector)
    ++ calls (Collect client (collector_after (Collect client freshCollector))) in
  infoFetches (twoPasses failing) = 2%nat
  /\ infoFetches (twoPasses silent) = 2%nat
  /\ calls (Collect silent (collector_after (Collect silent freshCollector)))
     = [CallAppliances; CallAppliancesInfo [String purifierID]].
Proof. repeat split. Qed.

(** ** Concurrent passes *)

Import Concurrent.

Lemma passes_app h t t' :
  passes h (t ++ t') = match passes h t with Some h' => passes h' t' | None => None end.
Proof.
  revert h. induction t as [|[g ev] t IH]; intros h; simpl; [reflexivity|].
  destruct h as [h|], ev; try reflexivity; try apply IH;
    destruct (Nat.eqb h g); try reflexivity; apply IH.
Qed.

(** The three kinds of step: acquiring the free mutex, moving inside the
    body with the mutex unchanged, and releasing the mutex on the way out. *)
Lemma next_kinds cl p locked c p' locked' c' ev :
  next cl p locked c = Some (p', locked', c', ev) ->
  (p = AtLock /\ locked = false /\ p' = AtAppliances /\ locked' = true /\ ev = EvLock)
  \/ (p = AtUnlock /\ p' = Returned /\ locked' = false /\ ev = EvUnlock)
  \/ (inside p = true /\ inside p' = true /\ locked' = locked
      /\ ev <> EvLock /\ ev <> EvUnlock).
Proof.
  destruct p as [| |l|l ids|l [|i infos]|[|a l]| |]; simpl; intros H;
    repeat case_match; simplify_eq; auto 10.
Qed.

Lemma step_Some g s s' :
  step g s = Some s' ->
  exists gr p locked c ev,
    goroutines s !! g = Some gr
    /\ next (client gr) (point gr) (mu s) (shared s) = Some (p, locked, c, ev)
    /\ s' = {| mu := locked; shared := c;
               goroutines := <[g := {| client := client gr; point := p |}]> (goroutines s);
               trace := trace s ++ [(g, ev)] |}.
Proof.
  unfold step. intros H. destruct (goroutines s !! g) as [gr|]; [|discriminate].
  destruct (next _ _ _ _) as [[[[p locked] c] ev]|] eqn:Hn; [|discriminate].
  injection H as <-. exists gr, p, locked, c, ev. auto.
Qed.

(** The goroutine inside [Collect] is the one that holds the mutex. *)
Lemma inside_is_holder s h g gr :
  locked_by s h -> goroutines s !! g = Some gr -> inside (point gr) = true -> h = Some g.
Proof.
  destruct h as [h|]; simpl.
  - intros (_ & _ & Hout) Hg Hin. destruct (decide (g = h)) as [->|Hne]; [reflexivity|].
    rewrite (Hout _ _ Hne Hg) in Hin. discriminate.
  - intros (_ & Hout) Hg Hin. rewrite (Hout _ _ Hg) in Hin. discriminate.
Qed.

Lemma step_invariant g s s' :
  mutex_invariant s -> step g s = Some s' -> mutex_invariant s'.
Proof.
  intros (h & Hl & Ht) Hstep.
  apply step_Some in Hstep as (gr & p & locked & c & ev & Hg & Hn & ->).
  assert (Hlt := lookup_lt_Some _ _ _ Hg).
  apply next_kinds in Hn
    as [(Hp & Hfree & -> & -> & ->)|[(Hp & -> & -> & ->)|(Hin & Hin' & -> & Hev1 & Hev2)]].
  - (* Lock *)
    destruct h as [h|]; [destruct Hl as (Hmu & _); congruence|].
    destruct Hl as (_ & Hout).
    exists (Some g). split.
    + simpl. split; [reflexivity|]. split.
      * eexists. split; [now apply list_lookup_insert_eq | reflexivity].
      * intros g' q Hne. rewrite list_lookup_insert_ne by congruence. apply Hout.
    + simpl. rewrite passes_app, Ht. reflexivity.
  - (* Unlock *)
    assert (Hin : inside (point gr) = true) by now rewrite Hp.
    assert (Eh := inside_is_holder _ _ _ _ Hl Hg Hin). subst h.
    destruct Hl as (_ & _ & Hout).
    exists None. split.
    + simpl. split; [reflexivity|].
      intros g' q. destruct (decide (g = g')) as [<-|Hne].
      * rewrite list_lookup_insert_eq by exact Hlt. now intros [= <-].
      * rewrite list_lookup_insert_ne by exact Hne. now apply Hout.
    + simpl. rewrite passes_app, Ht. simpl. now rewrite Nat.eqb_refl.
  - (* inside the body *)
    assert (Eh := inside_is_holder _ _ _ _ Hl Hg Hin). subst h.
    destruct Hl as (Hmu & _ & Hout).
    exists (Some g). split.
    + simpl. split; [exact Hmu|]. split.
      * eexists. split; [now apply list_lookup_insert_eq | exact Hin'].
      * intros g' q Hne. rewrite list_lookup_insert_ne by congruence. now apply Hout.
    + simpl. rewrite passes_app, Ht. simpl. rewrite Nat.eqb_refl.
      destruct ev; try reflexivity; contradiction.
Qed.

Lemma run_invariant schedule s s' :
  mutex_invariant s -> run schedule s = Some s' -> mutex_invariant s'.
Proof.
  revert s. induction schedule as [|g l IH]; intros s Hinv; simpl.
  - now intros [= <-].
  - destruct (step g s) as [s1|] eqn:E; [|discriminate].
    apply IH. eapply step_invariant; eauto.
Qed.

Lemma reachable_invariant c clients s : reachable c clients s -> mutex_invariant s.
Proof.
  intros (schedule & Hrun). eapply run_invariant; [|exact Hrun].
  exists None. split; [|reflexivity]. split; [reflexivity|].
  intros g gr Hg. simpl in Hg. rewrite list_lookup_fmap in Hg.
  destruct (clients !! g); simpl in Hg; [|discriminate]. now injection Hg as <-.
Qed.

(** C9. However the goroutines calling [Collect] on one collector are
    scheduled: at most one of them is inside the body, and then the mutex is
    locked and no other goroutine can take a step, so any other caller waits
    in [Lock] until the deferred [Unlock] of the pass has run; the trace is a
    sequence of whole passes, without an API call, a cache read or a cache
    write of one pass between the events of another. *)
Theorem one_pass_at_a_time c clients s :
  reachable c clients s ->
  (forall g1 g2 gr1 gr2,
     goroutines s !! g1 = Some gr1 -> goroutines s !! g2 = Some gr2 ->
     inside (point gr1) = true -> inside (point gr2) = true -> g1 = g2)
  /\ (forall g gr, goroutines s !! g = Some gr -> inside (point gr) = true ->
        mu s = true /\ forall g', g' <> g -> step g' s = None)
  /\ is_Some (passes None (trace s)).
Proof.
  intros Hr. destruct (reachable_invariant _ _ _ Hr) as (h & Hl & Ht).
  assert (Hone : forall g1 g2 gr1 gr2,
     goroutines s !! g1 = Some gr1 -> goroutines s !! g2 = Some gr2 ->
     inside (point gr1) = true -> inside (point gr2) = true -> g1 = g2).
  { intros g1 g2 gr1 gr2 H1 H2 I1 I2.
    assert (E1 := inside_is_holder _ _ _ _ Hl H1 I1).
    assert (E2 := inside_is_holder _ _ _ _ Hl H2 I2). congruence. }
  split; [exact Hone|]. split; [|eauto].
  intros g gr Hg Hin.
  assert (Eh := inside_is_holder _ _ _ _ Hl Hg Hin). subst h.
  destruct Hl as (Hmu & _ & Hout). split; [exact Hmu|].
  intros g' Hne. unfold step.
  destruct (goroutines s !! g') as [gr'|] eqn:Hg'; [|reflexivity].
  specialize (Hout _ _ Hne Hg'). rewrite Hmu.
  destruct (point gr'); try discriminate; reflexivity.
Qed.

(** Two callers, the first is inside [Collect]: the mutex is locked and the
    second cannot take a step. *)
Lemma one_pass_at_a_time_witness :
  mu midPass = true /\ step 1 midPass = None.
Proof.
  assert (Hr : reachable freshCollector [answers; answers] midPass)
    by (exists [0; 0]%nat; reflexivity).
  destruct (one_pass_at_a_time _ _ _ Hr) as (_ & Hblock & _).
  destruct (Hblock 0%nat _ eq_refl eq_refl) as (Hmu & Hothers).
  split; [exact Hmu | apply Hothers; discriminate].
Defined.

(** X18. The system never deadlocks: as long as a goroutine has not returned,
    some goroutine can take a step. *)
Lemma some_goroutine_can_step c clients s g gr :
  reachable c clients s -> goroutines s !! g = Some gr -> point gr <> Returned ->
  exists g', is_Some (step g' s).
Proof.
  intros Hr Hg Hp.
  destruct (reachable_invariant _ _ _ Hr) as (h & Hl & _).
  assert (Hmove : forall g gr, goroutines s !! g = Some gr -> inside (point gr) = true ->
            is_Some (step g s)).
  { clear. intros g gr Hg Hin. unfold step. rewrite Hg.
    assert (Hn : is_Some (next (client gr) (point gr) (mu s) (shared s))).
    { destruct (point gr) as [| |l|l ids|l [|i infos]|[|a l]| |]; try discriminate; simpl;
        repeat case_match; eauto. }
    destruct Hn as [[[[p locked] c] ev] ->]. eauto. }
  destruct h as [h|].
  - destruct Hl as (_ & (q & Hq & Hin) & _). exists h. eauto.
  - destruct Hl as (Hfree & Hout). exists g.
    unfold step. rewrite Hg, Hfree.
    specialize (Hout _ _ Hg).
    destruct (point gr); try discriminate; [simpl; eauto | contradiction].
Qed.

(** *** A pass on its own is [Collect] *)

Lemma finishes_step cl p locked c p' locked' c' ev c'' ms cs ms' cs' :
  finishes cl p' locked' c' {| collector_after := c''; metrics := ms; calls := cs |} ->
  next cl p locked c = Some (p', locked', c', ev) ->
  ms' = sent [ev] ++ ms ->
  cs' = called [ev] ++ cs ->
  finishes cl p locked c {| collector_after := c''; metrics := ms'; calls := cs' |}.
Proof.
  intros (fuel & evs & Ha & Hs & Hc) Hn -> ->.
  exists (S fuel), (ev :: evs). cbn [alone]. rewrite Hn, Ha.
  split; [reflexivity|].
  cbn [metrics calls] in *. rewrite <- Hs, <- Hc.
  split; simpl; now rewrite app_nil_r.
Qed.

(** One step of the goroutine, then the rest of the pass as [H] says. *)
Ltac then_finishes H :=
  eapply finishes_step; [exact H | ..];
  simpl; rewrite ?app_nil_r; try reflexivity.

Lemma finishes_unlock cl locked c :
  finishes cl AtUnlock locked c {| collector_after := c; metrics := []; calls := [] |}.
Proof. exists 1%nat, [EvUnlock]. repeat split. Qed.

Lemma finishes_emit cl todo locked c :
  finishes cl (AtEmit todo) locked c
    {| collector_after := c; metrics := collectAll c todo; calls := [] |}.
Proof.
  induction todo as [|a l IH].
  - then_finishes (finishes_unlock cl locked c).
  - then_finishes IH.
Qed.

Lemma foldl_storeInfo c applianceInfo :
  foldl storeInfo c applianceInfo
  = {| options := options c;
       applianceInfos := storeInfos (applianceInfos c) applianceInfo |}.
Proof.
  unfold storeInfos. revert c.
  induction applianceInfo as [|i l IH]; intros c; simpl.
  - now destruct c.
  - now rewrite IH.
Qed.

Lemma finishes_store cl appliances applianceInfo locked c :
  let c' := {| options := options c;
               applianceInfos := storeInfos (applianceInfos c) applianceInfo |} in
  finishes cl (AtStore appliances applianceInfo) locked c
    {| collector_after := c'; metrics := collectAll c' appliances; calls := [] |}.
Proof.
  cbv zeta. rewrite <- foldl_storeInfo. revert c.
  induction applianceInfo as [|i l IH]; intros c.
  - then_finishes (finishes_emit cl appliances locked c).
  - then_finishes (IH (storeInfo c i)).
Qed.

(** A goroutine that finds the mutex free and runs undisturbed returns with
    the mutex free again, having changed the collector, sent the metrics and
    made the API calls exactly as [Collect] says. Under the mutex every pass
    runs undisturbed. *)
Theorem pass_alone_is_Collect cl c :
  finishes cl AtLock false c (Collect cl c).
Proof.
  unfold Collect.
  destruct (Appliances cl) as [appliances|err] eqn:Hl.
  - destruct (0 <? Z.of_nat (length (uncachedIDs (applianceInfos c) appliances))) eqn:Hn.
    + destruct (AppliancesInfo cl (uncachedIDs (applianceInfos c) appliances))
        as [infos|err] eqn:Hi.
      * assert (H1 := finishes_store cl appliances infos true c). cbv zeta in H1.
        assert (H2 : finishes cl
                  (AtAppliancesInfo appliances (uncachedIDs (applianceInfos c) appliances))
                  true c _) by (then_finishes H1; now rewrite Hi).
        assert (H3 : finishes cl (AtScan appliances) true c _)
          by (then_finishes H2; now rewrite Hn).
        assert (H4 : finishes cl AtAppliances true c _)
          by (then_finishes H3; now rewrite Hl).
        then_finishes H4.
      * assert (H1 := finishes_unlock cl true c).
        assert (H2 : finishes cl
                  (AtAppliancesInfo appliances (uncachedIDs (applianceInfos c) appliances))
                  true c _) by (then_finishes H1; now rewrite Hi).
        assert (H3 : finishes cl (AtScan appliances) true c _)
          by (then_finishes H2; now rewrite Hn).
        assert (H4 : finishes cl AtAppliances true c _)
          by (then_finishes H3; now rewrite Hl).
        then_finishes H4.
    + assert (H1 := finishes_emit cl appliances true c).
      assert (H3 : finishes cl (AtScan appliances) true c _)
        by (then_finishes H1; now rewrite Hn).
      assert (H4 : finishes cl AtAppliances true c _)
        by (then_finishes H3; now rewrite Hl).
      then_finishes H4.
  - assert (H1 := finishes_unlock cl true c).
    assert (H4 : finishes cl AtAppliances true c _)
      by (then_finishes H1; now rewrite Hl).
    then_finishes H4.
Qed.

(** Two callers with the same answers. Run one after the other, the first
    pass takes nine steps and fetches the info, the second takes six and does
    not; a schedule that lets the second caller step while the first is
    inside [Collect] cannot be run. *)
Example two_callers_in_turn :
  let start := init freshCollector [answers; answers] in
  option_map (fun s => (mu s, map (point) (goroutines s),
                        infoFetches (called (map snd (trace s)))))
    (run (replicate 9 0 ++ replicate 6 1)%nat start)
  = Some (false, [Returned; Returned], 1%nat)
  /\ run [0; 0; 1]%nat start = None
  /\ run (replicate 9 0 ++ replicate 7 1)%nat start = None.
Proof. repeat split. Qed.

(** * Further properties of the collector *)

(** ** The other metrics of one appliance *)

(** Two different small numbers are different floats. *)
Ltac float_neq :=
  let E := fresh in
  intros E;
  first [ apply (f_equal (fun x => (x <? 0)%float)) in E; vm_compute in E; discriminate
        | apply (f_equal (fun x => (x <? 0.5)%float)) in E; vm_compute in E; discriminate ].

(** X1. A supported appliance always gets exactly one work mode sample: 0, 1,
    2 or 3 for PowerOff, Manual, Auto and Quiet, and the sentinel -1 exactly
    when the reported string is none of these four (the comparison is exact,
    case included). *)
Theorem workmode_sample c info appliance :
  supported info = true ->
  let s := Workmode (reported appliance) in
  valuesOf airPurifierWorkmode (collectAppliance c info appliance) = [workmode s]
  /\ (s = "PowerOff" -> workmode s = 0%float)
  /\ (s = "Manual" -> workmode s = 1%float)
  /\ (s = "Auto" -> workmode s = 2%float)
  /\ (s = "Quiet" -> workmode s = 3%float)
  /\ (workmode s = (-1)%float
      <-> s <> "PowerOff" /\ s <> "Manual" /\ s <> "Auto" /\ s <> "Quiet").
Proof.
  intros Hs s. split.
  { split_statements Hs; drop_others. reflexivity. }
  clearbody s.
  split; [now intros ->|]. split; [now intros ->|].
  split; [now intros ->|]. split; [now intros ->|].
  split.
  - intros E. repeat split; intros ->; revert E; float_neq.
  - intros (H1 & H2 & H3 & H4). unfold workmode.
    apply String.eqb_neq in H1, H2, H3, H4. now rewrite H1, H2, H3, H4.
Qed.

Lemma workmode_sample_witness :
  valuesOf airPurifierWorkmode
    (collectAppliance freshCollector purifierInfo (purifier everything)) = [1%float]
  /\ workmode "quiet" = (-1)%float.
Proof.
  destruct (workmode_sample freshCollector purifierInfo (purifier everything) eq_refl)
    as (Hv & _ & Hm & _).
  split; [rewrite Hv, (Hm eq_refl); reflexivity | reflexivity].
Defined.

(** X2. PM2.5 of a supported appliance: the direct reading is sent whenever it
    is present, whatever the approximate reading says; the approximate reading
    is sent only when the direct one is absent; with neither, nothing is
    sent. Timestamps play no role. *)
Theorem pm25_resolution c info appliance :
  supported info = true ->
  let r := reported appliance in
  let sent := valuesOf airPurifierPM25 (collectAppliance c info appliance) in
  (forall p, PM25 r = Some p -> sent = [Float64.of_int p])
  /\ (forall q, PM25 r = None -> PM25Approximate r = Some q -> sent = [Float64.of_int q])
  /\ (PM25 r = None -> PM25Approximate r = None -> sent = []).
Proof.
  intros Hs r sent. subst sent r.
  split_statements Hs; drop_others.
  repeat split; intros; repeat match goal with E : _ = _ |- _ => rewrite E end;
    reflexivity.
Qed.

Lemma pm25_resolution_witness :
  valuesOf airPurifierPM25
    (collectAppliance freshCollector purifierInfo (purifier everything)) = [3%float].
Proof.
  apply (proj1 (pm25_resolution freshCollector purifierInfo (purifier everything) eq_refl)
           3 eq_refl).
Defined.

(** X3. The optional integer sensors of a supported appliance: filter type,
    RSSI, temperature, PM1, PM10 and TVOC each yield one sample with the
    reading converted to float64 when present and no sample when absent;
    humidity yields the reading divided by 100. A reading of 0 is a sample
    like any other. *)
Theorem int_sensor_samples c info appliance :
  supported info = true ->
  let r := reported appliance in
  let out := collectAppliance c info appliance in
  let forwarded (o : option Z) :=
    match o with Some v => [Float64.of_int v] | None => [] end in
  valuesOf airPurifierFilterType out = forwarded (FilterType r)
  /\ valuesOf airPurifierRSSI out = forwarded (RSSI r)
  /\ valuesOf airPurifierTemperature out = forwarded (Temp r)
  /\ valuesOf airPurifierPM1 out = forwarded (PM1 r)
  /\ valuesOf airPurifierPM10 out = forwarded (PM10 r)
  /\ valuesOf airPurifierTVOC out = forwarded (TVOC r)
  /\ valuesOf airPurifierHumidity out
     = match Humidity r with Some h => [(Float64.of_int h / 100)%float] | None => [] end.
Proof.
  intros Hs r out forwarded. subst forwarded out r.
  repeat split; split_statements Hs; drop_others.
  - now destruct (FilterType _).
  - now destruct (RSSI _).
  - now destruct (Temp _).
  - now destruct (PM1 _).
  - now destruct (PM10 _).
  - now destruct (TVOC _).
  - now destruct (Humidity _).
Qed.

Lemma int_sensor_samples_witness :
  let out := collectAppliance freshCollector purifierInfo (purifier everything) in
  valuesOf airPurifierRSSI out = [(-52)%float]
  /\ valuesOf airPurifierHumidity out = [0.4%float].
Proof.
  intros out.
  destruct (int_sensor_samples freshCollector purifierInfo (purifier everything) eq_refl)
    as (_ & Hrssi & _ & _ & _ & _ & Hhum).
  subst out. split; [exact Hrssi | rewrite Hhum; reflexivity].
Defined.

(** X4. Whatever a supported appliance reports, it gets a connection sample,
    1 exactly when the connection state is the string Connected, and a raw
    fan speed sample, also when its model is unknown to [fanspeed]. *)
Theorem connection_and_raw_speed_samples c info appliance :
  supported info = true ->
  let out := collectAppliance c info appliance in
  (exists v, valuesOf airPurifierConnected out = [v]
     /\ (v = 1%float <-> ConnectionState appliance = "Connected")
     /\ (v = 0%float <-> ConnectionState appliance <> "Connected"))
  /\ valuesOf airPurifierFanspeedRaw out = [Float64.of_int (Fanspeed (reported appliance))].
Proof.
  intros Hs out. subst out. split.
  - exists (boolToFloat64 (String.eqb (ConnectionState appliance) "Connected")).
    split; [split_statements Hs; drop_others; reflexivity|].
    destruct (String.eqb_spec (ConnectionState appliance) "Connected") as [E|E]; simpl.
    + split; split; intros H; try reflexivity; try exact E; try contradiction.
      revert H. float_neq.
    + split; split; intros H; try reflexivity; try exact E; try contradiction.
      revert H. float_neq.
  - split_statements Hs; drop_others. reflexivity.
Qed.

Lemma connection_and_raw_speed_samples_witness :
  valuesOf airPurifierFanspeedRaw
    (collectAppliance freshCollector purifierInfo (unknownPurifier everything)) = [3%float].
Proof.
  apply (proj2 (connection_and_raw_speed_samples freshCollector purifierInfo
                  (unknownPurifier everything) eq_refl)).
Defined.

(** X5. A supported appliance gets a VOC density sample exactly when it gets
    a TVOC sample, and a fan speed ratio exactly when it gets a fan speed
    maximum: the derived value never goes out without the value it is derived
    from. *)
Theorem derived_samples_come_in_pairs c info appliance :
  supported info = true ->
  let out := collectAppliance c info appliance in
  length (valuesOf airPurifierVOCDensity out) = length (valuesOf airPurifierTVOC out)
  /\ length (valuesOf airPurifierFanspeed out) = length (valuesOf airPurifierFanspeedMax out).
Proof.
  intros Hs out. subst out. split.
  - transitivity (match TVOC (reported appliance) with Some _ => 1%nat | None => 0%nat end).
    + split_statements Hs; drop_others. now destruct (TVOC _).
    + split_statements Hs; drop_others. now destruct (TVOC _).
  - transitivity (if snd (fanspeed (ModelName (applianceData appliance))
                                 (Fanspeed (reported appliance)))
                  then 1%nat else 0%nat).
    + split_statements Hs; drop_others. now destruct (fanspeed _ _) as [[? ?] []].
    + split_statements Hs; drop_others. now destruct (fanspeed _ _) as [[? ?] []].
Qed.

Lemma derived_samples_come_in_pairs_witness :
  let out := collectAppliance freshCollector purifierInfo (unknownPurifier everything) in
  length (valuesOf airPurifierVOCDensity out) = 1%nat
  /\ length (valuesOf airPurifierFanspeed out) = 0%nat.
Proof.
  intros out. subst out.
  destruct (derived_samples_come_in_pairs freshCollector purifierInfo
              (unknownPurifier everything) eq_refl) as (Hv & Hf).
  split; [rewrite Hv | rewrite Hf]; reflexivity.
Defined.

(** Every metric of one appliance is of a descriptor that [Describe]
    announces. *)
Lemma collectAppliance_described c info appliance m :
  In m (collectAppliance c info appliance) -> In (desc m) Describe.
Proof.
  unfold collectAppliance.
  destruct (negb _); [intros []|].
  cbv zeta. rewrite !in_app_iff.
  unfold maybeCollectBoolMetric, maybeCollectIntMetric, collectMetric, MustNewConstMetric.
  intros H.
  repeat match type of H with _ \/ _ => destruct H as [H|H] end;
    repeat case_match; simpl in H; rewrite ?in_app_iff in H; simpl in H;
    repeat match type of H with _ \/ _ => destruct H as [H|H] end;
    try contradiction; subst m; simpl; auto 25.
Qed.

(** X6. Every metric a pass sends is of a descriptor announced by [Describe]
    and carries exactly as many label values as that descriptor has label
    names, so [MustNewConstMetric] cannot panic on the label count and the
    collector never sends an undescribed metric. *)
Theorem metrics_are_described client c m :
  In m (metrics (Collect client c)) ->
  In (desc m) Describe
  /\ length (labelValues m) = length (variableLabels (desc m))
  /\ length (labelValues m) = 9%nat.
Proof.
  intros Hm.
  destruct (Collect_metrics client c) as [E|(l & _ & E)]; rewrite E in Hm; [destruct Hm|].
  apply in_flat_map in Hm as (a & _ & Hm).
  assert (Hd := collectAppliance_described _ _ _ _ Hm).
  assert (Hl := collectAppliance_labels _ _ _ _ Hm).
  split; [exact Hd|]. rewrite Hl.
  split; [|reflexivity].
  assert (Hall := labels_arity
    (lookupInfo (applianceInfos (collector_after (Collect client c))) (PNC (applianceID a))) a).
  rewrite Forall_forall in Hall. symmetry. apply Hall.
  now apply list_elem_of_In.
Qed.

Lemma metrics_are_described_witness :
  Forall (fun m => length (labelValues m) = 9%nat)
    (metrics (Collect answers freshCollector))
  /\ metrics (Collect answers freshCollector) <> [].
Proof.
  split.
  - apply List.Forall_forall. intros m Hm.
    apply (metrics_are_described answers freshCollector m Hm).
  - vm_compute. discriminate.
Defined.

Lemma valuesOf_same_name d d' ms :
  fqName d = fqName d' -> valuesOf d ms = valuesOf d' ms.
Proof. unfold valuesOf, sameMetric. now intros ->. Qed.

Lemma valuesOf_nonempty d ms :
  valuesOf d ms <> [] -> exists m, In m ms /\ fqName d = fqName (desc m).
Proof.
  unfold valuesOf. induction ms as [|m l IH]; simpl; [congruence|].
  destruct (sameMetric d (desc m)) eqn:E.
  - intros _. exists m. split; [now left | now apply String.eqb_eq].
  - intros H. destruct (IH H) as (m' & Hm & Hn). exists m'. auto.
Qed.

Lemma at_most_one_described c info appliance d :
  supported info = true -> In d Describe ->
  (length (valuesOf d (collectAppliance c info appliance)) <= 1)%nat.
Proof.
  intros Hs Hd. simpl in Hd.
  repeat match type of Hd with _ \/ _ => destruct Hd as [<-|Hd] end;
    try contradiction;
    split_statements Hs; drop_others;
    unfold maybeCollectBoolMetric, maybeCollectIntMetric;
    repeat case_match; simpl; lia.
Qed.

(** X7. One appliance never gets two samples of the same metric in one pass
    over it: for every metric name, [Collect] sends at most one value per
    iteration of its loop (the PM2.5 and CO2 alternatives exclude each
    other), which is what Prometheus requires of samples with equal labels. *)
Theorem at_most_one_sample_per_metric c info appliance d :
  (length (valuesOf d (collectAppliance c info appliance)) <= 1)%nat.
Proof.
  destruct (supported info) eqn:Hs.
  2: { rewrite (collectAppliance_unsupported _ _ _ Hs). simpl. lia. }
  destruct (valuesOf d (collectAppliance c info appliance)) as [|v l] eqn:E;
    [simpl; lia|].
  assert (Hne : valuesOf d (collectAppliance c info appliance) <> []) by now rewrite E.
  apply valuesOf_nonempty in Hne as (m & Hm & Hn).
  rewrite <- E, (valuesOf_same_name _ _ _ Hn).
  apply at_most_one_described; [exact Hs|].
  eapply collectAppliance_described; eauto.
Qed.

(** X8. A supported appliance gets between 5 and 20 samples per pass,
    whatever it reports; an unsupported one gets none. *)
Theorem samples_per_appliance c info appliance :
  (supported info = true ->
     (5 <= length (collectAppliance c info appliance) <= 20)%nat)
  /\ (supported info = false -> collectAppliance c info appliance = []).
Proof.
  split; [|apply collectAppliance_unsupported].
  intros Hs. unfold collectAppliance. unfold supported in Hs. rewrite Hs. cbv zeta.
  simpl negb. cbv iota. rewrite !length_app.
  repeat match goal with
  | |- context [length ?p] =>
      first
        [ let E := fresh in
          assert (E : length p = 1%nat) by reflexivity; rewrite E; clear E
        | let n := fresh "n" in let E := fresh in
          assert (E : (length p <= 1)%nat)
            by (clear; unfold maybeCollectBoolMetric, maybeCollectIntMetric;
                repeat case_match; simpl; lia);
          revert E; generalize (length p); intros n E
        | let n := fresh "n" in let E := fresh in
          assert (E : (length p <= 2)%nat)
            by (clear; repeat case_match; simpl; lia);
          revert E; generalize (length p); intros n E ]
  end.
  lia.
Qed.

Lemma samples_per_appliance_witness :
  length (collectAppliance freshCollector purifierInfo (unknownPurifier zeroReported)) = 5%nat
  /\ length (collectAppliance freshCollector purifierInfo (purifier everything)) = 20%nat
  /\ collectAppliance freshCollector ovenInfo (oven everything) = [].
Proof.
  split; [reflexivity|]. split; [reflexivity|].
  apply (proj2 (samples_per_appliance freshCollector ovenInfo (oven everything))).
  reflexivity.
Defined.

(** ** Ranges of the values sent *)

Import Range Examples2.

Lemma Zall_spec n lo P :
  Zall n lo P = true -> forall v, lo <= v < lo + Z.of_nat n -> P v = true.
Proof.
  revert lo. induction n as [|n IH]; intros lo H v Hv; [lia|].
  simpl in H. apply andb_true_iff in H as [H0 H1].
  destruct (Z.eq_dec v lo) as [->|Hne]; [exact H0|].
  apply (IH (lo + 1) H1). lia.
Qed.

(** X9. Filter life and humidity are sent as [float64(v) / 100]: for every
    reading from 0 to 100 the value sent lies between 0 and 1, it is 0 at 0
    and 1 at 100, and a larger reading gives a strictly larger value. The
    collector does not clamp: a filter life sample is in the unit interval
    whenever both filter-life readings, where present, are from 0 to 100. *)
Theorem percent_ratio_range :
  (forall v, 0 <= v <= 100 -> unit_interval (percent v) = true)
  /\ percent 0 = 0%float /\ percent 100 = 1%float
  /\ (forall v w, 0 <= v -> v < w -> w <= 100 -> (percent v <? percent w)%float = true)
  /\ (forall c info appliance,
        supported info = true ->
        (forall v, FilterLife1 (reported appliance) = Some v -> 0 <= v <= 100) ->
        (forall v, FilterLife (reported appliance) = Some v -> 0 <= v <= 100) ->
        Forall (fun x => unit_interval x = true)
          (valuesOf airPurifierFilterLife (collectAppliance c info appliance))).
Proof.
  assert (Hunit : forall v, 0 <= v <= 100 -> unit_interval (percent v) = true).
  { intros v Hv.
    apply (Zall_spec 101 0 (fun v => unit_interval (percent v))); [vm_compute; reflexivity|].
    simpl; lia. }
  split; [exact Hunit|]. split; [reflexivity|]. split; [reflexivity|]. split.
  - intros v w H0 Hvw Hw.
    assert (Hall : Zall 101 0 (fun v => Zall 101 0 (fun w =>
              if v <? w then (percent v <? percent w)%float else true)) = true)
      by (vm_compute; reflexivity).
    assert (Hv := Zall_spec _ _ _ Hall v ltac:(simpl; lia)). cbv beta in Hv.
    assert (Hw' := Zall_spec _ _ _ Hv w ltac:(simpl; lia)). cbv beta in Hw'.
    now replace (v <? w) with true in Hw' by (symmetry; apply Z.ltb_lt; lia).
  - intros c info appliance Hs H1 H2.
    split_statements Hs; drop_others.
    assert (Hin : forall v, filterLife (reported appliance) = Some v -> 0 <= v <= 100).
    { intros v. unfold filterLife.
      destruct (FilterLife1 _) as [x|], (FilterLife _) as [y|]; simpl;
        try destruct (After _ _); intros [= <-]; auto. }
    destruct (filterLife _) as [v|]; simpl; constructor; [|constructor].
    apply (Hunit v). now apply Hin.
Qed.

(** A filter at 100 percent is sent as 1; a filter reported at 150 percent
    is sent as 1.5, outside the unit interval. *)
Lemma percent_ratio_range_witness :
  Forall (fun x => unit_interval x = true)
    (valuesOf airPurifierFilterLife
       (collectAppliance freshCollector purifierInfo (purifier everything)))
  /\ valuesOf airPurifierFilterLife
       (collectAppliance freshCollector purifierInfo (purifier overfull)) = [1.5%float].
Proof.
  split; [|reflexivity].
  apply (proj2 (proj2 (proj2 (proj2 percent_ratio_range)))
           freshCollector purifierInfo (purifier everything) eq_refl).
  - intros v [= <-]. lia.
  - intros v [= <-]. lia.
Defined.

(** X10. For every model of the table the maximum is 3, 5 or 9, and for every
    raw speed from 0 to the maximum the ratio sent, raw / max rounded to two
    decimals, lies between 0 and 1, is 0 at speed 0 and 1 at the maximum, and
    grows strictly with the raw speed. *)
Theorem fan_ratio_range model max :
  Spec.lookupMax Spec.fanspeedMaxTable model = Some max ->
  let ratio speed := round (fst (fst (fanspeed model speed))) 2 in
  exists k, (k = 3 \/ k = 5 \/ k = 9) /\ max = Float64.of_int k
    /\ ratio 0 = 0%float /\ ratio k = 1%float
    /\ (forall speed, 0 <= speed <= k -> unit_interval (ratio speed) = true)
    /\ (forall s1 s2, 0 <= s1 -> s1 < s2 -> s2 <= k -> (ratio s1 <? ratio s2)%float = true).
Proof.
  intros Hm ratio.
  assert (Hr : forall speed, ratio speed = round (Float64.of_int speed / max)%float 2).
  { intros speed. subst ratio. cbv beta. now rewrite fanspeed_table, Hm. }
  assert (Hk : max = 9%float \/ max = 5%float \/ max = 3%float).
  { clear Hr. simpl in Hm.
    repeat match type of Hm with
    | context [String.eqb model ?k] => destruct (String.eqb model k)
    end; try discriminate; injection Hm as <-; auto. }
  assert (Hcheck : forall k, (k = 3 \/ k = 5 \/ k = 9) ->
    Zall (Z.to_nat (k + 1)) 0 (fun s1 =>
      unit_interval (round (Float64.of_int s1 / Float64.of_int k)%float 2)
      && Zall (Z.to_nat (k + 1)) 0 (fun s2 =>
           if s1 <? s2
           then (round (Float64.of_int s1 / Float64.of_int k)%float 2
                 <? round (Float64.of_int s2 / Float64.of_int k)%float 2)%float
           else true)) = true).
  { intros k [->|[->| ->]]; vm_compute; reflexivity. }
  assert (Hmain : forall k, (k = 3 \/ k = 5 \/ k = 9) -> max = Float64.of_int k ->
    ratio 0 = 0%float /\ ratio k = 1%float
    /\ (forall speed, 0 <= speed <= k -> unit_interval (ratio speed) = true)
    /\ (forall s1 s2, 0 <= s1 -> s1 < s2 -> s2 <= k -> (ratio s1 <? ratio s2)%float = true)).
  { intros k Hk3 ->. specialize (Hcheck k Hk3).
    split; [rewrite Hr; now destruct Hk3 as [->|[->| ->]]|].
    split; [rewrite Hr; now destruct Hk3 as [->|[->| ->]]|].
    split.
    - intros speed Hs. rewrite Hr.
      assert (H := Zall_spec _ _ _ Hcheck speed ltac:(lia)).
      cbv beta in H. now apply andb_true_iff in H as [H _].
    - intros s1 s2 H0 H12 H2k. rewrite !Hr.
      assert (H := Zall_spec _ _ _ Hcheck s1 ltac:(lia)).
      cbv beta in H. apply andb_true_iff in H as [_ H].
      assert (H' := Zall_spec _ _ _ H s2 ltac:(lia)). cbv beta in H'.
      now replace (s1 <? s2) with true in H' by (symmetry; apply Z.ltb_lt; lia). }
  destruct Hk as [->|[->| ->]].
  - exists 9. split; [auto|]. split; [reflexivity|]. apply Hmain; auto.
  - exists 5. split; [auto|]. split; [reflexivity|]. apply Hmain; auto.
  - exists 3. split; [auto|]. split; [reflexivity|]. apply Hmain; auto.
Qed.

(** On a Pure A9, speed 4 is sent as 0.44 and speed 5 as 0.56. *)
Lemma fan_ratio_range_witness :
  (round (fst (fst (fanspeed "PUREA9" 4))) 2 <? round (fst (fst (fanspeed "PUREA9" 5))) 2)%float
  = true
  /\ round (fst (fst (fanspeed "PUREA9" 4))) 2 = 0.44%float
  /\ round (fst (fst (fanspeed "PUREA9" 5))) 2 = 0.56%float.
Proof.
  destruct (fan_ratio_range "PUREA9" 9%float eq_refl) as (k & Hk & Hmax & _ & _ & _ & Hmono).
  assert (k = 9) as ->.
  { destruct Hk as [->|[->| ->]]; [| |reflexivity]; exfalso; revert Hmax;
      intros E; apply (f_equal (fun x => (x <? 7)%float)) in E; vm_compute in E; discriminate. }
  split; [apply Hmono; lia|]. split; reflexivity.
Defined.

(** X11. [round f 2] leaves alone what has two decimals already: for every
    integer k from -10000 to 10000, rounding k / 100 gives k / 100 back, so
    rounding twice is rounding once on these values. *)
Theorem round_keeps_two_decimals k :
  -10000 <= k <= 10000 ->
  (round (Float64.of_int k / 100)%float 2 =? (Float64.of_int k / 100))%float = true.
Proof.
  intros Hk.
  apply (Zall_spec (Z.to_nat 20001) (-10000)
           (fun k => (round (Float64.of_int k / 100)%float 2 =? (Float64.of_int k / 100))%float));
    [vm_compute; reflexivity | rewrite Z2Nat.id by lia; lia].
Qed.

Lemma round_keeps_two_decimals_witness :
  (round 0.33%float 2 =? 0.33)%float = true.
Proof. apply (round_keeps_two_decimals 33). lia. Defined.

(** ** The collector and its cache over passes *)

(** X12. A collector made by [NewCollector] starts with an empty cache, so its
    first pass asks for the info of every listed appliance, and its molecular
    weight is never zero: without options, or with a weight equal to zero
    (negative zero included), the weight is that of formaldehyde, 30.026;
    any other weight is kept as given. *)
Theorem new_collector_defaults opts :
  let c := NewCollector opts in
  applianceInfos c = ∅
  /\ (forall appliances,
        uncachedIDs (applianceInfos c) appliances
        = map (fun a => String (applianceID a)) appliances)
  /\ (MolecularWeight (options c) =? 0)%float = false
  /\ (opts = None -> MolecularWeight (options c) = 30.026%float)
  /\ (forall o, opts = Some o ->
        if (MolecularWeight o =? 0)%float
        then MolecularWeight (options c) = 30.026%float
        else options c = o).
Proof.
  intros c. split; [reflexivity|]. split.
  { intros appliances. subst c. simpl. unfold uncachedIDs.
    induction appliances as [|a l IH]; [reflexivity|]. simpl.
    rewrite lookup_empty. simpl. now rewrite IH. }
  subst c. unfold NewCollector.
  destruct opts as [[w]|]; simpl.
  - destruct (w =? 0)%float eqn:E; simpl.
    + repeat split; try discriminate. intros o [= <-]. simpl. now rewrite E.
    + repeat split; try discriminate; [exact E|]. intros o [= <-]. simpl. now rewrite E.
  - repeat split. discriminate.
Qed.

Lemma new_collector_defaults_witness :
  MolecularWeight (options (NewCollector (Some {| MolecularWeight := (-0)%float |})))
  = 30.026%float
  /\ MolecularWeight (options (NewCollector (Some {| MolecularWeight := 44.01%float |})))
     = 44.01%float.
Proof.
  split.
  - apply (proj2 (proj2 (proj2 (proj2 (new_collector_defaults
             (Some {| MolecularWeight := (-0)%float |})))))
             {| MolecularWeight := (-0)%float |} eq_refl).
  - exact (f_equal MolecularWeight
             (proj2 (proj2 (proj2 (proj2 (new_collector_defaults
                (Some {| MolecularWeight := 44.01%float |})))))
                {| MolecularWeight := 44.01%float |} eq_refl
              : options (NewCollector (Some {| MolecularWeight := 44.01%float |}))
                = {| MolecularWeight := 44.01%float |})).
Defined.

Lemma storeInfos_app infos l1 l2 :
  storeInfos infos (l1 ++ l2) = storeInfos (storeInfos infos l1) l2.
Proof. unfold storeInfos. apply foldl_app. Qed.

Lemma storeInfos_other infos applianceInfo pnc :
  (forall info, In info applianceInfo -> info_PNC info <> pnc) ->
  storeInfos infos applianceInfo !! pnc = infos !! pnc.
Proof.
  unfold storeInfos. revert infos.
  induction applianceInfo as [|i l IH]; intros infos H; simpl; [reflexivity|].
  rewrite IH by (intros j Hj; apply H; now right).
  apply lookup_insert_ne. apply H. now left.
Qed.

(** What a pass does to the cache: nothing, or it stores an answer of the
    info fetch. *)
Lemma Collect_cache client c :
  let c' := collector_after (Collect client c) in
  options c' = options c
  /\ (applianceInfos c' = applianceInfos c
      \/ exists ids applianceInfo,
           AppliancesInfo client ids = Ok applianceInfo
           /\ applianceInfos c' = storeInfos (applianceInfos c) applianceInfo).
Proof.
  unfold Collect.
  destruct (Appliances client) as [l|e]; [|simpl; auto].
  destruct (0 <? _); [|simpl; auto].
  destruct (AppliancesInfo client _) eqn:E; simpl; [|auto].
  split; [reflexivity|]. right. eauto.
Qed.

(** X13. A pass never evicts: an identifier cached before a pass is cached
    after it, with the same info unless the info fetch of this pass returned
    a record with that PNC, which then replaces it; the options of the
    collector never change. *)
Theorem pass_never_evicts client c pnc info :
  applianceInfos c !! pnc = Some info ->
  let c' := collector_after (Collect client c) in
  options c' = options c
  /\ is_Some (applianceInfos c' !! pnc)
  /\ (applianceInfos c' !! pnc = Some info
      \/ exists ids applianceInfo info',
           AppliancesInfo client ids = Ok applianceInfo
           /\ In info' applianceInfo /\ info_PNC info' = pnc).
Proof.
  intros Hc c'. destruct (Collect_cache client c) as (Ho & [E|(ids & l & Hi & E)]);
    fold c' in Ho, E; (split; [exact Ho|]); rewrite E.
  - split; [eauto | now left].
  - split; [apply storeInfos_lookup; left; eauto|].
    destruct (List.existsb (fun i => String.eqb (info_PNC i) pnc) l) eqn:Ex.
    + apply List.existsb_exists in Ex as (i & Hin & Heq).
      apply String.eqb_eq in Heq. right. eauto 6.
    + left. rewrite storeInfos_other; [exact Hc|].
      intros i Hin Heq.
      assert (List.existsb (fun i => String.eqb (info_PNC i) pnc) l = true).
      { apply List.existsb_exists. exists i. split; [exact Hin | now apply String.eqb_eq]. }
      congruence.
Qed.

(** The purifier is cached by a first pass; a second pass whose client lists
    an oven as well and answers with the oven only leaves the purifier's
    entry as it is. *)
Lemma pass_never_evicts_witness :
  let c1 := collector_after (Collect answers freshCollector) in
  let c2 := collector_after
              (Collect (clientOf [oven everything; purifier everything] (Ok [ovenInfo])) c1) in
  applianceInfos c2 !! "950011538" = Some purifierInfo
  /\ applianceInfos c2 !! "944188772" = Some ovenInfo.
Proof.
  intros c1 c2.
  assert (H1 : applianceInfos c1 !! "950011538" = Some purifierInfo) by reflexivity.
  destruct (pass_never_evicts
              (clientOf [oven everything; purifier everything] (Ok [ovenInfo]))
              c1 "950011538" purifierInfo H1) as (_ & _ & [H|(ids & l & i & Hi & Hin & Hp)]).
  - split; [exact H | reflexivity].
  - exfalso. simpl in Hi. injection Hi as <-. destruct Hin as [<-|[]]. discriminate.
Defined.

(** X14. Every entry of the cache is filed under the PNC it carries: this
    holds of the empty cache and every pass keeps it. With such a cache, the
    first label of every metric of a pass, [pnc], is the PNC of the
    identifier of a listed appliance, the seventh is that identifier, and the
    other info labels are those of the cache entry of that PNC. *)
Theorem cache_is_keyed_by_pnc client c :
  (forall pnc info, applianceInfos c !! pnc = Some info -> info_PNC info = pnc) ->
  let p := Collect client c in
  (forall pnc info,
     applianceInfos (collector_after p) !! pnc = Some info -> info_PNC info = pnc)
  /\ (forall m, In m (metrics p) ->
        exists appliances a info,
          Appliances client = Ok appliances /\ In a appliances
          /\ applianceInfos (collector_after p) !! PNC (applianceID a) = Some info
          /\ labelValues m
             = [PNC (applianceID a); Brand info; ProductArea info; "AIR_PURIFIER";
                Model info; Variant info; String (applianceID a);
                ApplianceName (applianceData a); ModelName (applianceData a)]).
Proof.
  intros Hkey p.
  assert (Hkey' : forall pnc info,
     applianceInfos (collector_after p) !! pnc = Some info -> info_PNC info = pnc).
  { destruct (Collect_cache client c) as (_ & [E|(ids & l & _ & E)]); fold p in E;
      rewrite E; [exact Hkey|].
    clear E. unfold storeInfos. generalize dependent (applianceInfos c).
    induction l as [|i l IH]; intros infos Hk; simpl; [exact Hk|].
    apply IH. intros pnc info. destruct (decide (info_PNC i = pnc)) as [<-|Hne].
    - rewrite lookup_insert_eq. now intros [= <-].
    - rewrite lookup_insert_ne by exact Hne. apply Hk. }
  split; [exact Hkey'|].
  intros m Hm.
  destruct (Collect_metrics client c) as [E|(l & Hl & E)]; fold p in E; rewrite E in Hm;
    [destruct Hm|].
  apply in_flat_map in Hm as (a & Ha & Hm).
  assert (Hlab := collectAppliance_labels _ _ _ _ Hm).
  unfold lookupInfo in Hm, Hlab.
  destruct (applianceInfos (collector_after p) !! PNC (applianceID a)) as [info|] eqn:Hi;
    simpl in Hm, Hlab.
  - exists l, a, info. repeat split; try assumption.
    rewrite Hlab. unfold applianceLabels.
    rewrite (Hkey' _ _ Hi).
    destruct (String.eqb_spec (DeviceType info) "AIR_PURIFIER") as [->|Hd]; [reflexivity|].
    rewrite collectAppliance_unsupported in Hm; [destruct Hm|].
    unfold supported. now apply String.eqb_neq.
  - contradiction.
Qed.

Lemma cache_is_keyed_by_pnc_witness :
  Forall (fun m => nth 0 (labelValues m) EmptyString = "950011538")
    (metrics (Collect answers freshCollector)).
Proof.
  apply List.Forall_forall. intros m Hm.
  destruct (cache_is_keyed_by_pnc answers freshCollector) as (_ & Hlabels).
  { intros pnc info H. simpl in H. rewrite lookup_empty in H. discriminate. }
  destruct (Hlabels m Hm) as (l & a & info & Hl & Ha & _ & ->).
  simpl in Hl. injection Hl as <-. destruct Ha as [<-|[]]. reflexivity.
Defined.

(** X15. Storing the answer of an info fetch and looking a PNC up again gives
    the last record of the answer that carries this PNC; records with other
    PNCs before or after it do not matter, and earlier records with the same
    PNC are overwritten. *)
Theorem last_record_wins infos before info after :
  (forall i, In i after -> info_PNC i <> info_PNC info) ->
  storeInfos infos (before ++ info :: after) !! info_PNC info = Some info.
Proof.
  intros Hafter.
  change (before ++ info :: after) with (before ++ [info] ++ after).
  rewrite !storeInfos_app, storeInfos_other by exact Hafter.
  simpl. apply lookup_insert_eq.
Qed.

Lemma last_record_wins_witness :
  let older := {| info_PNC := "950011538"; Brand := "AEG"; ProductArea := "WELLBEING";
                  DeviceType := "AIR_PURIFIER"; Model := "AX9"; Variant := "CADR600" |} in
  storeInfos ∅ ([older] ++ purifierInfo :: [ovenInfo]) !! "950011538" = Some purifierInfo.
Proof.
  intros older.
  apply (last_record_wins ∅ [older] purifierInfo [ovenInfo]).
  intros i [<-|[]]. discriminate.
Defined.

(** X16. Every pass calls the API at most twice and in a fixed order: first
    the appliance list, then, only if the list was obtained and some listed
    appliance is not cached, one batch info request, which is never made with
    an empty list of identifiers. A pass over an empty appliance list sends
    nothing and leaves the collector as it is. *)
Theorem api_call_discipline client c :
  let p := Collect client c in
  (calls p = [CallAppliances]
   \/ exists appliances ids,
        Appliances client = Ok appliances
        /\ ids = uncachedIDs (applianceInfos c) appliances
        /\ ids <> []
        /\ calls p = [CallAppliances; CallAppliancesInfo ids])
  /\ (Appliances client = Ok [] ->
      p = {| collector_after := c; metrics := []; calls := [CallAppliances] |}).
Proof.
  intros p. subst p. unfold Collect. split.
  - destruct (Appliances client) as [l|e]; [|now left].
    rewrite nonempty_test.
    destruct (uncachedIDs (applianceInfos c) l) as [|i ids] eqn:E; [now left|].
    right. exists l, (i :: ids). rewrite E.
    repeat split; try discriminate. now destruct (AppliancesInfo client _).
  - now intros ->.
Qed.

Lemma api_call_discipline_witness :
  Collect (clientOf [] (Error "unused")) freshCollector
  = {| collector_after := freshCollector; metrics := []; calls := [CallAppliances] |}.
Proof.
  apply (proj2 (api_call_discipline (clientOf [] (Error "unused")) freshCollector)).
  reflexivity.
Defined.

(** X17. An appliance that is still not cached after a pass, because the info
    fetch failed or returned no record with its PNC, is skipped in that pass
    and asked about again: every later pass that lists it requests the batch
    info with its identifier. *)
Theorem uncached_appliance_is_requested_again client c a :
  let c' := collector_after (Collect client c) in
  applianceInfos c' !! PNC (applianceID a) = None ->
  collectAppliance c' (cachedInfo c' a) a = []
  /\ forall client2 appliances,
       Appliances client2 = Ok appliances -> In a appliances ->
       exists ids,
         calls (Collect client2 c') = [CallAppliances; CallAppliancesInfo ids]
         /\ In (String (applianceID a)) ids.
Proof.
  intros c' Hnone. split.
  - unfold cachedInfo, lookupInfo. now rewrite Hnone.
  - intros client2 l Hl Ha.
    assert (Hin : In (String (applianceID a)) (uncachedIDs (applianceInfos c') l)).
    { unfold uncachedIDs. apply in_flat_map. exists a. split; [exact Ha|].
      rewrite Hnone. now left. }
    exists (uncachedIDs (applianceInfos c') l). split; [|exact Hin].
    unfold Collect. rewrite Hl, nonempty_test.
    destruct (uncachedIDs (applianceInfos c') l); [destruct Hin|].
    now destruct (AppliancesInfo client2 _).
Qed.

(** The info endpoint answers without a record for the purifier: the
    purifier sends nothing, and the next pass asks for it again. *)
Lemma uncached_appliance_is_requested_again_witness :
  let silent := clientOf [purifier everything] (Ok []) in
  metrics (Collect silent freshCollector) = []
  /\ exists ids,
       calls (Collect silent (collector_after (Collect silent freshCollector)))
       = [CallAppliances; CallAppliancesInfo ids]
       /\ In (String purifierID) ids.
Proof.
  intros silent.
  destruct (uncached_appliance_is_requested_again silent freshCollector
              (purifier everything) eq_refl) as (Hskip & Hagain).
  split; [reflexivity|].
  apply (Hagain silent [purifier everything] eq_refl). now left.
Defined.

(** ** Concurrent passes, continued *)

Import Serial.

(** The second caller of [midPass] waits in [Lock]; the first can go on. *)
Lemma some_goroutine_can_step_witness :
  exists g, is_Some (step g midPass).
Proof.
  apply (some_goroutine_can_step freshCollector [answers; answers] midPass 1
           {| client := answers; point := AtLock |}).
  - exists [0; 0]%nat. reflexivity.
  - reflexivity.
  - discriminate.
Defined.

Lemma released_app t t' : released (t ++ t') = released t ++ released t'.
Proof. unfold released. apply flat_map_app. Qed.

Lemma inTurn_snoc clients c order g :
  inTurn clients c (order ++ [g])
  = match clients !! g with
    | Some cl => collector_after (Collect cl (inTurn clients c order))
    | None => inTurn clients c order
    end.
Proof. unfold inTurn. now rewrite foldl_app. Qed.

(** A goroutine inside [Collect] that is on its way to some collector takes
    its next step and is still on its way there. *)
Lemma alone_inside fuel cl p c q l d evs :
  inside p = true ->
  alone fuel cl p true c = (q, l, d, evs) -> q = Returned ->
  exists fuel' p' locked' c' ev evs',
    fuel = S fuel'
    /\ next cl p true c = Some (p', locked', c', ev)
    /\ alone fuel' cl p' locked' c' = (Returned, l, d, evs').
Proof.
  intros Hin Ha ->. destruct fuel as [|fuel]; simpl in Ha.
  - injection Ha as -> _ _ _. discriminate.
  - destruct (next cl p true c) as [[[[p' locked'] c'] ev]|] eqn:Hn.
    + destruct (alone fuel cl p' locked' c') as [[[q' l'] d'] evs'] eqn:Ha'.
      injection Ha as -> -> -> _. eauto 10.
    + injection Ha as -> _ _ _. discriminate.
Qed.

Lemma alone_Returned fuel cl locked c :
  alone fuel cl Returned locked c = (Returned, locked, c, []).
Proof. now destruct fuel. Qed.

Lemma step_serial c clients g s s' :
  mutex_invariant s -> serial_invariant c clients s ->
  step g s = Some s' -> serial_invariant c clients s'.
Proof.
  intros (h & Hl & _) (Hcl & Hfree & Hway) Hstep.
  apply step_Some in Hstep as (gr & p & locked & c' & ev & Hg & Hn & ->).
  assert (Hlt := lookup_lt_Some _ _ _ Hg).
  assert (Hclients : forall g' gr',
    <[g := {| client := client gr; point := p |}]> (goroutines s) !! g' = Some gr' ->
    clients !! g' = Some (client gr')).
  { intros g' gr'. destruct (decide (g = g')) as [<-|Hne].
    - rewrite list_lookup_insert_eq by exact Hlt. intros [= <-]. exact (Hcl _ _ Hg).
    - rewrite list_lookup_insert_ne by exact Hne. apply Hcl. }
  destruct (next_kinds _ _ _ _ _ _ _ _ Hn)
    as [(Hp & Hmu & -> & -> & ->)|[(Hp & -> & -> & ->)|(Hin & Hin' & -> & Hev1 & Hev2)]].
  - (* Lock *)
    destruct h as [h|]; [destruct Hl as (Hmu' & _); congruence|].
    destruct Hl as (_ & Hout).
    rewrite Hp, Hmu in Hn. simpl in Hn. injection Hn as <-.
    unfold serial_invariant. simpl. rewrite released_app, app_nil_r.
    split; [exact Hclients|]. split; [discriminate|].
    intros g' gr'. destruct (decide (g = g')) as [<-|Hne].
    + rewrite list_lookup_insert_eq by exact Hlt. intros [= <-] _. simpl.
      destruct (pass_alone_is_Collect (client gr) (shared s)) as (fuel & evs & Ha & _).
      destruct fuel as [|fuel]; [discriminate|]. simpl in Ha.
      destruct (alone fuel (client gr) AtAppliances true (shared s))
        as [[[q l] d] evs'] eqn:Ha'.
      injection Ha as -> -> -> _. rewrite <- (Hfree Hmu). eauto.
    + rewrite list_lookup_insert_ne by exact Hne. intros Hg' Hin.
      rewrite (Hout _ _ Hg') in Hin. discriminate.
  - (* Unlock *)
    assert (Hin : inside (point gr) = true) by now rewrite Hp.
    assert (Eh := inside_is_holder _ _ _ _ Hl Hg Hin). subst h.
    destruct Hl as (_ & _ & Hout).
    destruct (Hway _ _ Hg Hin) as (fuel & evs & Ha).
    rewrite Hp in Ha, Hn. simpl in Hn. injection Hn as <-.
    destruct fuel as [|fuel]; [discriminate|]. simpl in Ha.
    rewrite alone_Returned in Ha. injection Ha as Hshared _.
    unfold serial_invariant. simpl. rewrite released_app. simpl.
    rewrite inTurn_snoc, (Hcl _ _ Hg).
    split; [exact Hclients|]. split; [intros _; exact Hshared|].
    intros g' gr'. destruct (decide (g = g')) as [<-|Hne].
    + rewrite list_lookup_insert_eq by exact Hlt. intros [= <-]. discriminate.
    + rewrite list_lookup_insert_ne by exact Hne. intros Hg' Hin'.
      rewrite (Hout _ _ (not_eq_sym Hne) Hg') in Hin'. discriminate.
  - (* inside the body *)
    assert (Eh := inside_is_holder _ _ _ _ Hl Hg Hin). subst h.
    destruct Hl as (Hmu & _ & Hout).
    destruct (Hway _ _ Hg Hin) as (fuel & evs & Ha).
    apply alone_inside in Ha as (fuel' & p' & l' & d' & ev' & evs' & -> & Hn' & Ha');
      [|exact Hin|reflexivity].
    rewrite Hmu in Hn. rewrite Hn in Hn'. injection Hn' as <- <- <- <-.
    unfold serial_invariant. simpl. rewrite released_app.
    replace (released [(g, ev)]) with (@nil nat)
      by (destruct ev; try reflexivity; contradiction).
    rewrite app_nil_r.
    split; [exact Hclients|]. split; [congruence|].
    intros g' gr'. destruct (decide (g = g')) as [<-|Hne].
    + rewrite list_lookup_insert_eq by exact Hlt. intros [= <-] _. simpl. eauto.
    + rewrite list_lookup_insert_ne by exact Hne. intros Hg' Hin2.
      rewrite (Hout _ _ (not_eq_sym Hne) Hg') in Hin2. discriminate.
Qed.

Lemma step_released g s s' :
  released_invariant s -> step g s = Some s' -> released_invariant s'.
Proof.
  intros (Hnd & Hret) Hstep.
  apply step_Some in Hstep as (gr & p & locked & c' & ev & Hg & Hn & ->).
  assert (Hlt := lookup_lt_Some _ _ _ Hg).
  assert (Hnot : ~ In g (released (trace s))).
  { intros Hin. apply Hret in Hin as (gr' & Hg' & Hp).
    rewrite Hg in Hg'. injection Hg' as <-.
    rewrite Hp in Hn. discriminate. }
  assert (Hothers : forall g', g' <> g ->
    (exists gr', <[g := {| client := client gr; point := p |}]> (goroutines s) !! g' = Some gr'
                 /\ point gr' = Returned)
    <-> In g' (released (trace s))).
  { intros g' Hne. rewrite list_lookup_insert_ne by congruence. symmetry. apply Hret. }
  unfold released_invariant. simpl. rewrite released_app.
  destruct (next_kinds _ _ _ _ _ _ _ _ Hn)
    as [(_ & _ & -> & _ & ->)|[(_ & -> & _ & ->)|(_ & Hin' & _ & Hev1 & Hev2)]].
  - simpl. rewrite app_nil_r. split; [exact Hnd|].
    intros g'. destruct (decide (g' = g)) as [->|Hne]; [|symmetry; now apply Hothers].
    rewrite list_lookup_insert_eq by exact Hlt. split; [contradiction|].
    intros (gr' & [= <-] & Hp). discriminate.
  - simpl. split.
    + apply NoDup_app. repeat split; [exact Hnd | | apply NoDup_singleton].
      intros x Hx [->|[]]%list_elem_of_In. apply Hnot. now apply list_elem_of_In.
    + intros g'. rewrite in_app_iff. simpl.
      destruct (decide (g' = g)) as [->|Hne].
      * rewrite list_lookup_insert_eq by exact Hlt. split; [eauto|auto].
      * rewrite <- (Hothers g' Hne). split; [intros [H|[H|[]]]; [exact H | congruence] | auto].
  - replace (released [(g, ev)]) with (@nil nat)
      by (destruct ev; try reflexivity; contradiction).
    rewrite app_nil_r. split; [exact Hnd|].
    intros g'. destruct (decide (g' = g)) as [->|Hne]; [|symmetry; now apply Hothers].
    rewrite list_lookup_insert_eq by exact Hlt. split; [contradiction|].
    intros (gr' & [= <-] & Hp). simpl in Hp. rewrite Hp in Hin'. discriminate.
Qed.

Lemma run_serial c clients schedule s s' :
  mutex_invariant s -> serial_invariant c clients s -> released_invariant s ->
  run schedule s = Some s' ->
  serial_invariant c clients s' /\ released_invariant s'.
Proof.
  revert s. induction schedule as [|g l IH]; intros s Hm Hs Hr; simpl.
  - intros [= <-]. auto.
  - destruct (step g s) as [s1|] eqn:E; [|discriminate].
    apply IH.
    + eapply step_invariant; eauto.
    + eapply step_serial; eauto.
    + eapply step_released; eauto.
Qed.

(** X20. Concurrent passes are serializable. In every reachable state the
    goroutines that have released the mutex are exactly those that have
    returned, each once, and whenever the mutex is free the shared collector
    is the one obtained by calling [Collect] sequentially, once per returned
    goroutine with the answers its client gave, in the order in which the
    passes released the mutex. *)
Theorem passes_are_serializable c clients s :
  reachable c clients s ->
  let order := released (trace s) in
  NoDup order
  /\ (forall g, In g order
        <-> exists gr, goroutines s !! g = Some gr /\ point gr = Returned)
  /\ (mu s = false -> shared s = inTurn clients c order).
Proof.
  intros (schedule & Hrun) order.
  assert (Hm : mutex_invariant (init c clients)).
  { exists None. split; [|reflexivity]. split; [reflexivity|].
    intros g gr Hg. simpl in Hg. rewrite list_lookup_fmap in Hg.
    destruct (clients !! g); simpl in Hg; [|discriminate]. now injection Hg as <-. }
  assert (Hs : serial_invariant c clients (init c clients)).
  { split; [|split].
    - intros g gr Hg. simpl in Hg. rewrite list_lookup_fmap in Hg.
      destruct (clients !! g); simpl in Hg; [|discriminate]. now injection Hg as <-.
    - reflexivity.
    - intros g gr Hg. simpl in Hg. rewrite list_lookup_fmap in Hg.
      destruct (clients !! g); simpl in Hg; [|discriminate]. injection Hg as <-.
      discriminate. }
  assert (Hr : released_invariant (init c clients)).
  { split; [constructor|]. intros g. simpl. split; [intros []|].
    intros (gr & Hg & Hp). rewrite list_lookup_fmap in Hg.
    destruct (clients !! g); simpl in Hg; [|discriminate]. injection Hg as <-.
    discriminate. }
  destruct (run_serial _ _ _ _ _ Hm Hs Hr Hrun) as ((_ & Hfree & _) & Hnd & Hret).
  auto.
Qed.

(** Both callers of [twoCallers] have returned: the shared collector is the
    one that two calls of [Collect] in a row leave behind. *)
Lemma passes_are_serializable_witness :
  shared bothReturned
  = collector_after (Collect answers (collector_after (Collect answers freshCollector))).
Proof.
  assert (Hr : reachable freshCollector [answers; answers] bothReturned)
    by (exists (replicate 9 0 ++ replicate 6 1)%nat; reflexivity).
  destruct (passes_are_serializable _ _ _ Hr) as (_ & _ & Hshared).
  rewrite (Hshared eq_refl). reflexivity.
Defined.

(** ** Configuration from the environment *)

(** X21. [envOrDefault] returns the value of the variable when it is set and
    not empty, and the default otherwise: a variable set to the empty string
    counts as not set. The result is empty only if the default is. The name
    asked for is appended to [availableEnvs] in every case. *)
Theorem env_or_default environ availableEnvs env def :
  let r := main.envOrDefault environ availableEnvs env def in
  fst r = availableEnvs ++ [env]
  /\ (environ !! env = None -> snd r = def)
  /\ (environ !! env = Some EmptyString -> snd r = def)
  /\ (forall v, environ !! env = Some v -> v <> EmptyString -> snd r = v)
  /\ (def <> EmptyString -> snd r <> EmptyString).
Proof.
  intros r. subst r. unfold main.envOrDefault, main.Getenv.
  destruct (environ !! env) as [v|]; simpl.
  - destruct (String.eqb_spec v EmptyString) as [->|Hne]; simpl.
    + repeat split; try discriminate; auto. intros v [= <-]. contradiction.
    + repeat split; try discriminate; auto.
      * intros [= ->]. contradiction.
      * now intros v' [= <-].
  - repeat split; try discriminate; auto.
Qed.

Lemma env_or_default_witness :
  let environ : gmap string string :=
    {[ "ELECTROLUX_EXPORTER_ADDR" := ":9092"; "ELECTROLUX_EXPORTER_BRAND" := EmptyString ]} in
  snd (main.envOrDefault environ [] "ELECTROLUX_EXPORTER_ADDR" ":8080") = ":9092"
  /\ snd (main.envOrDefault environ [] "ELECTROLUX_EXPORTER_BRAND" "electrolux") = "electrolux"
  /\ snd (main.envOrDefault environ [] "ELECTROLUX_EXPORTER_COUNTRY_CODE" "FI") = "FI".
Proof.
  intros environ. split; [|split].
  - apply (proj1 (proj2 (proj2 (proj2
      (env_or_default environ [] "ELECTROLUX_EXPORTER_ADDR" ":8080")))) ":9092");
      [reflexivity | discriminate].
  - apply (proj1 (proj2 (proj2
      (env_or_default environ [] "ELECTROLUX_EXPORTER_BRAND" "electrolux")))).
    reflexivity.
  - apply (proj1 (proj2
      (env_or_default environ [] "ELECTROLUX_EXPORTER_COUNTRY_CODE" "FI"))).
    reflexivity.
Defined.

Lemma envsOrDefaults_cons environ availableEnvs env def rest :
  main.envsOrDefaults environ availableEnvs ((env, def) :: rest)
  = (fst (main.envsOrDefaults environ (availableEnvs ++ [env]) rest),
     snd (main.envOrDefault environ [] env def)
     :: snd (main.envsOrDefaults environ (availableEnvs ++ [env]) rest)).
Proof.
  simpl. unfold main.envOrDefault.
  destruct (negb _); now destruct (main.envsOrDefaults _ _ _).
Qed.

(** X22. Calls of [envOrDefault] in a row do not disturb one another: the
    names asked for are recorded in call order, repetitions included, each
    value is what a single call gives, and in an environment without any
    variable every value is its default. *)
Theorem env_lookups_in_a_row environ availableEnvs queries :
  let r := main.envsOrDefaults environ availableEnvs queries in
  fst r = availableEnvs ++ map fst queries
  /\ snd r = map (fun q => snd (main.envOrDefault environ [] (fst q) (snd q))) queries
  /\ (environ = ∅ -> snd r = map snd queries).
Proof.
  cbv zeta. revert availableEnvs.
  induction queries as [|[env def] l IH]; intros availableEnvs.
  - simpl. rewrite app_nil_r. auto.
  - rewrite envsOrDefaults_cons.
    destruct (IH (availableEnvs ++ [env])) as (Hn & Hv & Hempty).
    cbn [fst snd map]. rewrite Hn, Hv, <- app_assoc.
    split; [reflexivity|]. split; [reflexivity|].
    intros ->. rewrite <- Hv, Hempty by reflexivity. reflexivity.
Qed.

Lemma env_lookups_in_a_row_witness :
  main.envsOrDefaults ∅ []
    [("ELECTROLUX_EXPORTER_ADDR", ":8080"); ("ELECTROLUX_EXPORTER_EMAIL", EmptyString);
     ("ELECTROLUX_EXPORTER_ADDR", ":8080")]
  = (["ELECTROLUX_EXPORTER_ADDR"; "ELECTROLUX_EXPORTER_EMAIL"; "ELECTROLUX_EXPORTER_ADDR"],
     [":8080"; EmptyString; ":8080"]).
Proof.
  destruct (env_lookups_in_a_row ∅ []
    [("ELECTROLUX_EXPORTER_ADDR", ":8080"); ("ELECTROLUX_EXPORTER_EMAIL", EmptyString);
     ("ELECTROLUX_EXPORTER_ADDR", ":8080")]) as (Hn & _ & Hv).
  specialize (Hv eq_refl).
  destruct (main.envsOrDefaults _ _ _) as [envs vs]. simpl in Hn, Hv. now subst.
Defined.

Lemma alone_events fuel cl p locked c :
  (length (snd (alone fuel cl p locked c)) <= fuel)%nat.
Proof.
  revert p locked c. induction fuel as [|fuel IH]; intros p locked c; simpl; [lia|].
  destruct (next cl p locked c) as [[[[p1 l1] c1] ev]|]; simpl; [|lia].
  specialize (IH p1 l1 c1).
  destruct (alone fuel cl p1 l1 c1) as [[[q2 l2] c2] evs2]. simpl in *. lia.
Qed.

(** X19. A pass that finds the mutex free and runs undisturbed, as every pass
    does under the mutex, ends after finitely many steps with the mutex free
    again, and has then changed the collector, sent the metrics and made the
    API calls exactly as the sequential [Collect] says, whatever the client
    answers. *)
Theorem undisturbed_pass_is_Collect cl c :
  exists fuel evs,
    alone fuel cl AtLock false c
    = (Returned, false, collector_after (Collect cl c), evs)
    /\ sent evs = metrics (Collect cl c)
    /\ called evs = calls (Collect cl c)
    /\ (length evs <= fuel)%nat.
Proof.
  destruct (pass_alone_is_Collect cl c) as (fuel & evs & Ha & Hs & Hc).
  exists fuel, evs. repeat split; try assumption.
  assert (H := alone_events fuel cl AtLock false c). now rewrite Ha in H.
Qed.

(** ** Signal strength *)

(** X23. [signalStrengthToRSSI] never gives a positive value: a weaker signal
    name gives a strictly lower value, from -40 for EXCELLENT down to -70 for
    WEAK, and the result is 0 exactly when the string is none of the four
    names. *)
Theorem signal_strength_mapping s :
  let v := signal.signalStrengthToRSSI s in
  (v <=? 0)%float = true
  /\ (v = 0%float
      <-> s <> "EXCELLENT" /\ s <> "GOOD" /\ s <> "FAIR" /\ s <> "WEAK")
  /\ (signal.signalStrengthToRSSI "WEAK" <? signal.signalStrengthToRSSI "FAIR")%float = true
  /\ (signal.signalStrengthToRSSI "FAIR" <? signal.signalStrengthToRSSI "GOOD")%float = true
  /\ (signal.signalStrengthToRSSI "GOOD" <? signal.signalStrengthToRSSI "EXCELLENT")%float
     = true.
Proof.
  intros v. subst v.
  split.
  { unfold signal.signalStrengthToRSSI.
    repeat match goal with |- context [String.eqb s ?k] => destruct (String.eqb s k) end;
      reflexivity. }
  split; [|repeat split].
  split.
  - intros E. repeat split; intros ->; revert E; float_neq.
  - intros (H1 & H2 & H3 & H4). unfold signal.signalStrengthToRSSI.
    apply String.eqb_neq in H1, H2, H3, H4. now rewrite H1, H2, H3, H4.
Qed.

Lemma signal_strength_mapping_witness :
  signal.signalStrengthToRSSI "excellent" = 0%float.
Proof.
  apply (proj2 (proj1 (proj2 (signal_strength_mapping "excellent")))).
  repeat split; discriminate.
Defined.
